(** * Shard routing: modulo hashing and a consistent-hash ring

    A shallow embedding of [shard_manager.py].  Python integers are [Z],
    [str] is [string] (read as the UTF-8 text it holds), [bytes] is
    [list byte]; a call that can raise returns a [Result].  The two hash
    providers the module reaches for ([mmh3], and the interpreter's builtin
    [hash] on the fallback path) are not part of the repository: they are the
    fields of a [Runtime] record that every definition takes as a parameter. *)

From Stdlib Require Import ZArith List Bool Lia.
From Stdlib.Strings Require Import String Ascii Byte.
From Stdlib Require Import Sorted Permutation.
From Stdlib Require Import DecimalString DecimalPos DecimalZ.
From Stdlib Require DecimalFacts.
Import ListNotations.
Open Scope Z_scope.

(** ** Python values and exceptions *)

(** [Union[str, int, bytes]], the type of a sharding key. *)
Inductive Key : Type :=
| KStr (s : string)
| KInt (n : Z)
| KBytes (b : list byte).

Inductive PyError : Type :=
| TypeError
| ValueError (msg : string)
| ZeroDivisionError
| IndexError.

Inductive Result (A : Type) : Type :=
| Ok (a : A)
| Raise (e : PyError).
Arguments Ok {A} a.
Arguments Raise {A} e.

Definition bind {A B : Type} (r : Result A) (k : A -> Result B) : Result B :=
  match r with
  | Ok a => k a
  | Raise e => Raise e
  end.

Notation "x <- r ;; k" := (bind r (fun x => k))
  (at level 61, r at next level, right associativity).

(** [str(n)] for an integer: decimal digits, a leading minus sign when
    negative. *)
Definition str (n : Z) : string := NilZero.string_of_int (Z.to_int n).

(** [s.encode('utf-8')]. *)
Definition encode (s : string) : list byte := list_byte_of_string s.

Definition hex_digit (n : N) : ascii :=
  match n with
  | 0%N => "0" | 1%N => "1" | 2%N => "2" | 3%N => "3"
  | 4%N => "4" | 5%N => "5" | 6%N => "6" | 7%N => "7"
  | 8%N => "8" | 9%N => "9" | 10%N => "a" | 11%N => "b"
  | 12%N => "c" | 13%N => "d" | 14%N => "e" | _ => "f"
  end%char.

(** [b.hex()]: two lowercase hexadecimal digits per byte. *)
Fixpoint hex (b : list byte) : string :=
  match b with
  | [] => EmptyString
  | x :: rest =>
      let n := Byte.to_N x in
      String (hex_digit (N.div n 16)) (String (hex_digit (N.modulo n 16)) (hex rest))
  end.

(** [range(n)]: empty when [n <= 0]. *)
Definition range (n : Z) : list Z := map Z.of_nat (seq 0 (Z.to_nat n)).

(** [a % b] on integers: floor modulo, [ZeroDivisionError] on a zero
    divisor. *)
Definition py_mod (a b : Z) : Result Z :=
  if b =? 0 then Raise ZeroDivisionError else Ok (a mod b).

(** [for x in xs: body], the loop threading the local state [s]; an exception
    in the body leaves the loop. *)
Fixpoint for_each {S A : Type} (xs : list A) (body : A -> S -> Result S) (s : S)
  : Result S :=
  match xs with
  | [] => Ok s
  | x :: rest => s' <- body x s ;; for_each rest body s'
  end.

(** ** Methods with the object threaded through

    A method run on an object: its result or exception, and the object
    afterwards. *)

Definition Method (S A : Type) : Type := S -> Result A * S.

(** [self.x] *)
Definition attr {S A : Type} (x : S -> A) : Method S A :=
  fun self => (Ok (x self), self).

(** An expression that does not mention [self]. *)
Definition eval {S A : Type} (r : Result A) : Method S A :=
  fun self => (r, self).

Definition then_ {S A B : Type} (m : Method S A) (k : A -> Method S B)
  : Method S B :=
  fun self =>
    match m self with
    | (Ok a, self') => k a self'
    | (Raise e, self') => (Raise e, self')
    end.

Notation "x <~ m ;; k" := (then_ m (fun x => k))
  (at level 61, m at next level, right associativity).

(** ** The runtime: what is imported, not defined, by the module

    The mixing functions of [mmh3] are parameters, given on the bytes of a
    key and a seed the library has accepted.  How the library reads its
    arguments, and what it raises when it refuses them, is written out in
    [mmh3_buffer], [mmh3_seed] and the two calls below. *)

Record Runtime : Type := {
  (** whether [import mmh3] succeeded *)
  HAS_MMH3 : bool;
  (** the 32-bit word [mmh3.hash] computes, as the signed integer the
      library returns by default *)
  mmh3_hash : list byte -> Z -> Z;
  (** the value of [mmh3.hash128(key, seed, signed=False)] *)
  mmh3_hash128 : list byte -> Z -> Z;
  (** the builtin [hash] on a [str] *)
  builtin_hash : string -> Z
}.

(** How [mmh3] reads its first argument: text is hashed through its UTF-8
    bytes, bytes as they are, anything else is a [TypeError]. *)
Definition mmh3_buffer (key : Key) : Result (list byte) :=
  match key with
  | KStr s => Ok (encode s)
  | KBytes b => Ok b
  | KInt _ => Raise TypeError
  end.

(** How [mmh3] reads its seed: an integer outside [[0, 2^32 - 1]] is
    refused with [ValueError]. *)
Definition mmh3_seed (seed : Z) : Result Z :=
  if (0 <=? seed) && (seed <=? 0xffffffff) then Ok seed
  else Raise (ValueError "seed is out of range").

(** [mmh3.hash(key, seed, signed)]: the key is read first, then the seed.
    The result is a 32-bit word, returned as a signed integer by default
    and, with [signed=False], as the unsigned integer with the same 32 bits
    (the comment at the call in [murmur3_32]: "mmh3.hash returns signed int
    by default, convert to unsigned"). *)
Definition mmh3_hash_call (rt : Runtime) (key : Key) (seed : Z) (signed : bool)
  : Result Z :=
  b <- mmh3_buffer key ;;
  seed <- mmh3_seed seed ;;
  let result := mmh3_hash rt b seed in
  Ok (if signed then result else Z.land result 0xffffffff).

(** [mmh3.hash128(key, seed, signed=False)] *)
Definition mmh3_hash128_call (rt : Runtime) (key : Key) (seed : Z) : Result Z :=
  b <- mmh3_buffer key ;;
  seed <- mmh3_seed seed ;;
  Ok (mmh3_hash128 rt b seed).

(** [a + key] with [a] a bytes object: defined for bytes only. *)
Definition bytes_add (a : list byte) (key : Key) : Result (list byte) :=
  match key with
  | KBytes b => Ok (a ++ b)
  | _ => Raise TypeError
  end.

(** ** class MurmurHash *)

Module MurmurHash.
Section WithRuntime.
Variable rt : Runtime.

Definition murmur3_32 (key : Key) (seed : Z) : Result Z :=
  if HAS_MMH3 rt then
    mmh3_hash_call rt key seed false
  else
    let key := match key with KStr s => KBytes (encode s) | _ => key end in
    combined <- bytes_add (encode (str seed)) key ;;
    Ok (Z.land (Z.abs (builtin_hash rt (hex combined))) 0xffffffff).

Definition murmur3_128 (key : Key) (seed : Z) : Result Z :=
  if HAS_MMH3 rt then
    hash_128 <- mmh3_hash128_call rt key seed ;;
    Ok (Z.land hash_128 0x7fffffffffffffff)
  else
    let key := match key with KStr s => KBytes (encode s) | _ => key end in
    combined <- bytes_add (encode (str seed)) key ;;
    Ok (Z.land (Z.abs (builtin_hash rt (hex combined))) 0x7fffffffffffffff).

End WithRuntime.
End MurmurHash.

(** ** dataclass ShardConfig *)

Record ShardConfig : Type := {
  total_shards : Z;
  hash_seed : Z;
  algorithm : string
}.

(** ** Dictionaries with integer keys

    A Python [dict] keeps its keys in insertion order; assigning to a key
    that is present replaces the value where it stands. *)

Definition dict (V : Type) : Type := list (Z * V).

(** [d[k]], [None] standing for the missing key. *)
Fixpoint dict_get {V : Type} (d : dict V) (k : Z) : option V :=
  match d with
  | [] => None
  | (k', v) :: rest => if k' =? k then Some v else dict_get rest k
  end.

(** [d.get(k, default)] *)
Definition dict_get_default {V : Type} (d : dict V) (k : Z) (default : V) : V :=
  match dict_get d k with
  | Some v => v
  | None => default
  end.

(** [d[k] = v] *)
Fixpoint dict_set {V : Type} (d : dict V) (k : Z) (v : V) : dict V :=
  match d with
  | [] => [(k, v)]
  | (k', v') :: rest =>
      if k' =? k then (k, v) :: rest else (k', v') :: dict_set rest k v
  end.

(** [d.keys()], [d.values()] *)
Definition dict_keys {V : Type} (d : dict V) : list Z := map fst d.
Definition dict_values {V : Type} (d : dict V) : list V := map snd d.

(** The per-shard dictionary literal of [get_database_config]. *)
Module DbConfig.
Record t : Type := {
  database_name : string;
  shard_id : Z;
  host : string;
  port : Z
}.
End DbConfig.

(** ** class ShardManager *)

Module ShardManager.

Record t : Type := {
  config : ShardConfig;
  _hash_func : Key -> Z -> Result Z
}.

Section WithRuntime.
Variable rt : Runtime.

Definition _get_hash_function (config : ShardConfig)
  : Result (Key -> Z -> Result Z) :=
  if String.eqb (algorithm config) "murmur3_32" then
    Ok (MurmurHash.murmur3_32 rt)
  else if String.eqb (algorithm config) "murmur3_128" then
    Ok (MurmurHash.murmur3_128 rt)
  else
    Raise (ValueError ("Unsupported hash algorithm: " ++ algorithm config)).

Definition __init__ (config : ShardConfig) : Result t :=
  hash_func <- _get_hash_function config ;;
  Ok {| config := config; _hash_func := hash_func |}.

End WithRuntime.

Definition get_shard_id (self : t) (key : Key) : Result Z :=
  let key := match key with KInt n => KStr (str n) | _ => key end in
  hash_value <- _hash_func self key (hash_seed (config self)) ;;
  shard_id <- py_mod hash_value (total_shards (config self)) ;;
  Ok shard_id.

Definition migrate_key (self : t) (key : Key) (old_total_shards : Z)
  : Result (Z * Z * bool) :=
  hash_value <- _hash_func self key (hash_seed (config self)) ;;
  old_shard_id <- py_mod hash_value old_total_shards ;;
  new_shard_id <- get_shard_id self key ;;
  let needs_migration := negb (old_shard_id =? new_shard_id) in
  Ok (old_shard_id, new_shard_id, needs_migration).

Definition get_shard_key_distribution (self : t) (keys : list Key)
  : Result (dict Z) :=
  for_each keys (fun key distribution =>
    shard_id <- get_shard_id self key ;;
    Ok (dict_set distribution shard_id
          (dict_get_default distribution shard_id 0 + 1))) [].

Definition get_database_config (self : t) (base_db_name : string)
  : dict DbConfig.t :=
  fold_left (fun db_configs shard_id =>
    dict_set db_configs shard_id
      {| DbConfig.database_name := (base_db_name ++ "_shard_" ++ str shard_id)%string;
         DbConfig.shard_id := shard_id;
         DbConfig.host := ("db-shard-" ++ str shard_id ++ ".example.com")%string;
         DbConfig.port := 5432 + shard_id |})
    (range (total_shards (config self))) [].

End ShardManager.

(** ** class ConsistentHashShardManager(ShardManager) *)

(** [ring.sort(key=lambda x: x[0])]: a stable sort on the first component,
    comparing keys with [<] only.  [sort_insert x l] puts [x] in front of the
    first element whose key is not smaller, so an element that came earlier
    stays in front of its equals. *)
Fixpoint sort_insert (x : Z * Z) (l : list (Z * Z)) : list (Z * Z) :=
  match l with
  | [] => [x]
  | y :: rest =>
      if fst y <? fst x then y :: sort_insert x rest else x :: y :: rest
  end.

Fixpoint sort_by_hash (l : list (Z * Z)) : list (Z * Z) :=
  match l with
  | [] => []
  | x :: rest => sort_insert x (sort_by_hash rest)
  end.

(** [f"shard_{shard_id}_vnode_{vnode}"] *)
Definition vnode_key (shard_id vnode : Z) : string :=
  ("shard_" ++ str shard_id ++ "_vnode_" ++ str vnode)%string.

Module ConsistentHashShardManager.

(** The inherited attributes [config] and [_hash_func], then the two the
    subclass adds. *)
Record t : Type := {
  config : ShardConfig;
  _hash_func : Key -> Z -> Result Z;
  virtual_nodes : Z;
  _ring : list (Z * Z)
}.

(** [_build_hash_ring] runs inside [__init__], when [self] has [config],
    [_hash_func] and [virtual_nodes] but no [_ring] yet: these three are what
    it reads. *)
Definition _build_hash_ring (config : ShardConfig)
    (_hash_func : Key -> Z -> Result Z) (virtual_nodes : Z)
  : Result (list (Z * Z)) :=
  ring <-
    for_each (range (total_shards config)) (fun shard_id ring =>
      for_each (range virtual_nodes) (fun vnode ring =>
        let vnode_key := vnode_key shard_id vnode in
        hash_value <- _hash_func (KStr vnode_key) (hash_seed config) ;;
        Ok (ring ++ [(hash_value, shard_id)])) ring) [] ;;
  Ok (sort_by_hash ring).

Definition __init__ (rt : Runtime) (config : ShardConfig) (virtual_nodes : Z)
  : Result t :=
  super <- ShardManager.__init__ rt config ;;
  ring <- _build_hash_ring (ShardManager.config super)
            (ShardManager._hash_func super) virtual_nodes ;;
  Ok {| config := ShardManager.config super;
        _hash_func := ShardManager._hash_func super;
        virtual_nodes := virtual_nodes;
        _ring := ring |}.

(** The [for ring_hash, shard_id in self._ring] loop with its early
    [return]: [Some] is the value returned from inside the loop, [None] means
    the loop ran to its end. *)
Fixpoint scan_ring (ring : list (Z * Z)) (hash_value : Z) : option Z :=
  match ring with
  | [] => None
  | (ring_hash, shard_id) :: rest =>
      if ring_hash >=? hash_value then Some shard_id
      else scan_ring rest hash_value
  end.

Definition get_shard_id (self : t) (key : Key) : Result Z :=
  let key := match key with KInt n => KStr (str n) | _ => key end in
  hash_value <- _hash_func self key (hash_seed (config self)) ;;
  match scan_ring (_ring self) hash_value with
  | Some shard_id => Ok shard_id
  | None =>
      match _ring self with
      | [] => Raise IndexError
      | first :: _ => Ok (snd first)
      end
  end.

(** The same method with the object threaded through its statements: each
    [self.x] is a read of the current object, the call of the hash function
    and the scan of the list that was read leave it alone, and what comes
    out is the result together with the object after the call. *)
Definition get_shard_id_method (key : Key) : Method t Z :=
  let key := match key with KInt n => KStr (str n) | _ => key end in
  hash_func <~ attr _hash_func ;;
  config <~ attr config ;;
  hash_value <~ eval (hash_func key (hash_seed config)) ;;
  ring <~ attr _ring ;;
  match scan_ring ring hash_value with
  | Some shard_id => eval (Ok shard_id)
  | None =>
      ring <~ attr _ring ;;
      match ring with
      | [] => eval (Raise IndexError)
      | first :: _ => eval (Ok (snd first))
      end
  end.

(** The methods inherited from [ShardManager].  Their bodies are the
    parent's; [self.get_shard_id] inside them resolves to the override
    above. *)

Definition get_shard_key_distribution (self : t) (keys : list Key)
  : Result (dict Z) :=
  for_each keys (fun key distribution =>
    shard_id <- get_shard_id self key ;;
    Ok (dict_set distribution shard_id
          (dict_get_default distribution shard_id 0 + 1))) [].

Definition get_database_config (self : t) (base_db_name : string)
  : dict DbConfig.t :=
  fold_left (fun db_configs shard_id =>
    dict_set db_configs shard_id
      {| DbConfig.database_name := (base_db_name ++ "_shard_" ++ str shard_id)%string;
         DbConfig.shard_id := shard_id;
         DbConfig.host := ("db-shard-" ++ str shard_id ++ ".example.com")%string;
         DbConfig.port := 5432 + shard_id |})
    (range (total_shards (config self))) [].

Definition migrate_key (self : t) (key : Key) (old_total_shards : Z)
  : Result (Z * Z * bool) :=
  hash_value <- _hash_func self key (hash_seed (config self)) ;;
  old_shard_id <- py_mod hash_value old_total_shards ;;
  new_shard_id <- get_shard_id self key ;;
  let needs_migration := negb (old_shard_id =? new_shard_id) in
  Ok (old_shard_id, new_shard_id, needs_migration).

End ConsistentHashShardManager.

(** ** Utility constructors *)

Definition create_user_shard_manager (rt : Runtime) (total_shards hash_seed : Z)
  : Result ShardManager.t :=
  let config := {| total_shards := total_shards;
                   hash_seed := hash_seed;
                   algorithm := "murmur3_32" |} in
  ShardManager.__init__ rt config.

Definition create_consistent_shard_manager (rt : Runtime)
    (total_shards virtual_nodes hash_seed : Z)
  : Result ConsistentHashShardManager.t :=
  let config := {| total_shards := total_shards;
                   hash_seed := hash_seed;
                   algorithm := "murmur3_32" |} in
  ConsistentHashShardManager.__init__ rt config virtual_nodes.

(** ** example_usage.py: class DatabaseRouter *)

(** What a [DatabaseRouter] may hold as its [shard_manager]: an instance of
    the class or of its subclass.  The two functions below are the method
    calls on it, dispatched on the class of the instance. *)
Inductive AnyShardManager : Type :=
| Modulo (m : ShardManager.t)
| Consistent (m : ConsistentHashShardManager.t).

Definition manager_get_shard_id (sm : AnyShardManager) (key : Key) : Result Z :=
  match sm with
  | Modulo m => ShardManager.get_shard_id m key
  | Consistent m => ConsistentHashShardManager.get_shard_id m key
  end.

Definition manager_get_database_config (sm : AnyShardManager) (base_db_name : string)
  : dict DbConfig.t :=
  match sm with
  | Modulo m => ShardManager.get_database_config m base_db_name
  | Consistent m => ConsistentHashShardManager.get_database_config m base_db_name
  end.

(** [shard_manager.config] *)
Definition manager_config (sm : AnyShardManager) : ShardConfig :=
  match sm with
  | Modulo m => ShardManager.config m
  | Consistent m => ConsistentHashShardManager.config m
  end.

(** The outcome of a call that may also fail on a dictionary subscript:
    [KeyError] carries the key that was missing. *)
Inductive Outcome (A : Type) : Type :=
| Return (a : A)
| Raised (e : PyError)
| KeyError (key : Z).
Arguments Return {A} a.
Arguments Raised {A} e.
Arguments KeyError {A} key.

Module DatabaseRouter.

Record t : Type := {
  shard_manager : AnyShardManager;
  db_configs : dict DbConfig.t
}.

Definition __init__ (shard_manager : AnyShardManager) : t :=
  {| shard_manager := shard_manager;
     db_configs := manager_get_database_config shard_manager "myapp" |}.

Definition get_database_connection_info (self : t) (user_id : Key)
  : Outcome DbConfig.t :=
  match manager_get_shard_id (shard_manager self) user_id with
  | Raise e => Raised e
  | Ok shard_id =>
      match dict_get (db_configs self) shard_id with
      | Some db_info => Return db_info
      | None => KeyError shard_id
      end
  end.

Definition route_query (self : t) (user_id : Key) (query : string)
  : Outcome string :=
  match get_database_connection_info self user_id with
  | Return db_info =>
      Return ("Execute '" ++ query ++ "' on " ++ DbConfig.database_name db_info
              ++ " at " ++ DbConfig.host db_info ++ ":"
              ++ str (DbConfig.port db_info))%string
  | Raised e => Raised e
  | KeyError key => KeyError key
  end.

End DatabaseRouter.

(** ** A runtime to run the model on

    Stand-ins for the external hash providers, so that closed instances of
    the statements below can be evaluated.  Both hashes fold the bytes into a
    polynomial in 31 started at the seed; the 32-bit one and the builtin one
    are centred on zero, so that negative values occur. *)

Definition poly31 (b : list byte) (seed : Z) : Z :=
  fold_left (fun acc x => acc * 31 + Z.of_N (Byte.to_N x)) b seed.

Definition sample_runtime (has_mmh3 : bool) : Runtime := {|
  HAS_MMH3 := has_mmh3;
  mmh3_hash := fun b seed => (poly31 b seed + 2 ^ 31) mod 2 ^ 32 - 2 ^ 31;
  mmh3_hash128 := fun b seed => poly31 b (seed + 7) mod 2 ^ 128;
  builtin_hash := fun s => poly31 (encode s) 5381 mod 2 ^ 64 - 2 ^ 63
|}.

Definition sample_config : ShardConfig :=
  {| total_shards := 5; hash_seed := 42; algorithm := "murmur3_32" |}.

(** The manager [ShardManager(sample_config)] on the runtime with [mmh3]. *)
Definition sample_manager : ShardManager.t :=
  {| ShardManager.config := sample_config;
     ShardManager._hash_func := MurmurHash.murmur3_32 (sample_runtime true) |}.

Definition negative_shards_config : ShardConfig :=
  {| total_shards := -3; hash_seed := 1; algorithm := "murmur3_128" |}.

Definition rejected_seed_config : ShardConfig :=
  {| total_shards := 4; hash_seed := -1; algorithm := "murmur3_32" |}.

Definition zero_shards_config : ShardConfig :=
  {| total_shards := 0; hash_seed := 0; algorithm := "murmur3_32" |}.

(** ** Vocabulary of the statements *)

(** Ring order: ascending by hash value. *)
Definition hash_le (a b : Z * Z) : Prop := fst a <= fst b.

(** The canonical form of a key, as both [get_shard_id] methods compute it
    before hashing: an integer becomes its decimal text. *)
Definition canonical (key : Key) : Key :=
  match key with
  | KInt n => KStr (str n)
  | _ => key
  end.

(** Keys of the type the hash functions declare, [Union[str, bytes]]. *)
Definition text_or_bytes (key : Key) : Prop :=
  match key with
  | KInt _ => False
  | _ => True
  end.

(** Seeds the hash backend in use accepts: [mmh3] wants an unsigned 32-bit
    seed, the fallback takes any integer. *)
Definition seed_accepted (rt : Runtime) (seed : Z) : Prop :=
  HAS_MMH3 rt = true -> 0 <= seed <= 0xffffffff.

(** The algorithm tags [_get_hash_function] accepts. *)
Definition supported (config : ShardConfig) : Prop :=
  algorithm config = "murmur3_32"%string \/ algorithm config = "murmur3_128"%string.

(** What a manager built from [config] holds as [_hash_func]. *)
Definition selected (rt : Runtime) (config : ShardConfig)
    (f : Key -> Z -> Result Z) : Prop :=
  (algorithm config = "murmur3_32"%string /\ f = MurmurHash.murmur3_32 rt) \/
  (algorithm config = "murmur3_128"%string /\ f = MurmurHash.murmur3_128 rt).

(** The entry [_build_hash_ring] appends for the pair (shard id, virtual
    node index), given the hash value [g] of each virtual-node key. *)
Definition ring_entry (g : string -> Z) (p : Z * Z) : Z * Z :=
  (g (vnode_key (fst p) (snd p)), fst p).

(** How many of [keys] the routing function [route] sends to shard [s]. *)
Definition routed_to (route : Key -> Result Z) (s : Z) (keys : list Key) : nat :=
  List.length
    (filter (fun key => match route key with
                        | Ok s' => s' =? s
                        | Raise _ => false
                        end) keys).

(** [sum(d.values())] *)
Definition sum_values (d : dict Z) : Z := fold_right Z.add 0 (dict_values d).

Definition unsupported_config : ShardConfig :=
  {| total_shards := 4; hash_seed := 0; algorithm := "md5" |}.

(** Texts without the separator of the virtual-node identifiers. *)
Definition no_underscore (s : string) : Prop :=
  ~ In "_"%char (list_ascii_of_string s).

(** * Properties *)

(** ** Results *)

Lemma bind_ok {A B : Type} (r : Result A) (k : A -> Result B) (b : B) :
  bind r k = Ok b -> exists a, r = Ok a /\ k a = Ok b.
Proof.
  destruct r as [a|e]; simpl; intros H; [eauto | discriminate].
Qed.

Lemma py_mod_nonzero (a b : Z) : b <> 0 -> py_mod a b = Ok (a mod b).
Proof.
  intros Hb. unfold py_mod. destruct (Z.eqb_spec b 0); [contradiction | reflexivity].
Qed.

Lemma py_mod_zero (a : Z) : py_mod a 0 = Raise ZeroDivisionError.
Proof. reflexivity. Qed.

(** ** [range] *)

Lemma range_length (n : Z) : List.length (range n) = Z.to_nat n.
Proof. unfold range. now rewrite length_map, length_seq. Qed.

Lemma In_range (n x : Z) : In x (range n) <-> 0 <= x < n.
Proof.
  unfold range. rewrite in_map_iff. split.
  - intros [i [<- Hi]]. apply in_seq in Hi. lia.
  - intros Hx. exists (Z.to_nat x). split; [lia | apply in_seq; lia].
Qed.

Lemma range_nonpos (n : Z) : n <= 0 -> range n = [].
Proof.
  intros Hn. unfold range. replace (Z.to_nat n) with 0%nat by lia. reflexivity.
Qed.

(** ** Loops whose body cannot raise *)

Lemma for_each_append {A B : Type} (xs : list A)
    (body : A -> list B -> Result (list B)) (out : A -> list B) :
  (forall x acc, In x xs -> body x acc = Ok (acc ++ out x)) ->
  forall acc, for_each xs body acc = Ok (acc ++ flat_map out xs).
Proof.
  induction xs as [|x xs IH]; intros Hbody acc; simpl.
  - now rewrite app_nil_r.
  - rewrite Hbody by (now left). simpl.
    rewrite IH by (intros; apply Hbody; now right).
    now rewrite app_assoc.
Qed.

Lemma flat_map_singleton {A B : Type} (f : A -> B) (xs : list A) :
  flat_map (fun x => [f x]) xs = map f xs.
Proof. induction xs; simpl; congruence. Qed.

Lemma flat_map_list_prod {A B C : Type} (f : A * B -> C) (xs : list A) (ys : list B) :
  flat_map (fun x => map (fun y => f (x, y)) ys) xs = map f (list_prod xs ys).
Proof.
  induction xs as [|x xs IH]; simpl; [reflexivity|].
  now rewrite map_app, map_map, IH.
Qed.

(** ** The sort *)

Lemma sort_insert_perm (x : Z * Z) (l : list (Z * Z)) :
  Permutation (x :: l) (sort_insert x l).
Proof.
  induction l as [|y l IH]; simpl; [reflexivity|].
  destruct (fst y <? fst x); [|reflexivity].
  rewrite perm_swap. now apply perm_skip.
Qed.

Lemma sort_by_hash_perm (l : list (Z * Z)) : Permutation l (sort_by_hash l).
Proof.
  induction l as [|x l IH]; simpl; [constructor|].
  rewrite <- sort_insert_perm. now apply perm_skip.
Qed.

Lemma sort_insert_hd (x : Z * Z) (l : list (Z * Z)) (y : Z * Z) :
  HdRel hash_le y l -> hash_le y x -> HdRel hash_le y (sort_insert x l).
Proof.
  intros Hl Hx. destruct l as [|z l]; simpl; [now constructor|].
  destruct (fst z <? fst x); constructor; [now inversion Hl | assumption].
Qed.

Lemma sort_insert_sorted (x : Z * Z) (l : list (Z * Z)) :
  Sorted hash_le l -> Sorted hash_le (sort_insert x l).
Proof.
  induction 1 as [|y l Hsorted IH Hhd]; simpl.
  - repeat constructor.
  - destruct (Z.ltb_spec (fst y) (fst x)) as [Hlt|Hge].
    + constructor; [assumption|].
      apply sort_insert_hd; [assumption | unfold hash_le; lia].
    + constructor; [now constructor | now constructor].
Qed.

Lemma sort_by_hash_sorted (l : list (Z * Z)) : Sorted hash_le (sort_by_hash l).
Proof.
  induction l as [|x l IH]; simpl; [constructor | now apply sort_insert_sorted].
Qed.

Lemma hash_le_trans : Relations_1.Transitive hash_le.
Proof. intros a b c; unfold hash_le; lia. Qed.

(** In a ring sorted by hash the head carries the smallest hash. *)
Lemma sorted_head_least (e0 : Z * Z) (l : list (Z * Z)) :
  Sorted hash_le (e0 :: l) -> forall e, In e (e0 :: l) -> fst e0 <= fst e.
Proof.
  intros Hs e He. apply Sorted_StronglySorted in Hs; [|exact hash_le_trans].
  inversion Hs as [|? ? _ Hall]; subst.
  destruct He as [<-|He]; [lia|].
  rewrite Forall_forall in Hall. now apply Hall.
Qed.

(** ** Keys and the hash adapter *)

Lemma canonical_text_or_bytes (key : Key) : text_or_bytes (canonical key).
Proof. destruct key; exact I. Qed.

Section HashAdapter.
Variable rt : Runtime.

Lemma seed_accepted_dec (seed : Z) :
  seed_accepted rt seed \/ ~ seed_accepted rt seed.
Proof.
  unfold seed_accepted. destruct (HAS_MMH3 rt).
  - destruct (Z_le_dec 0 seed), (Z_le_dec seed 0xffffffff);
      [left; intros _; lia | right; intros H; specialize (H eq_refl); lia ..].
  - left. discriminate.
Qed.

Lemma mmh3_seed_accepted (seed : Z) :
  0 <= seed <= 0xffffffff -> mmh3_seed seed = Ok seed.
Proof.
  intros Hs. unfold mmh3_seed.
  destruct (Z.leb_spec 0 seed), (Z.leb_spec seed 0xffffffff); try lia. reflexivity.
Qed.

Lemma mmh3_seed_rejected (seed : Z) :
  ~ 0 <= seed <= 0xffffffff ->
  mmh3_seed seed = Raise (ValueError "seed is out of range").
Proof.
  intros Hs. unfold mmh3_seed.
  destruct (Z.leb_spec 0 seed), (Z.leb_spec seed 0xffffffff); try lia; reflexivity.
Qed.

Lemma murmur3_32_total (key : Key) (seed : Z) :
  text_or_bytes key -> seed_accepted rt seed ->
  exists h, MurmurHash.murmur3_32 rt key seed = Ok h.
Proof.
  unfold MurmurHash.murmur3_32, mmh3_hash_call, seed_accepted.
  destruct key; simpl; intros Hk Hs; try contradiction;
    destruct (HAS_MMH3 rt); simpl; eauto;
    rewrite (mmh3_seed_accepted seed (Hs eq_refl)); simpl; eauto.
Qed.

Lemma murmur3_128_total (key : Key) (seed : Z) :
  text_or_bytes key -> seed_accepted rt seed ->
  exists h, MurmurHash.murmur3_128 rt key seed = Ok h.
Proof.
  unfold MurmurHash.murmur3_128, mmh3_hash128_call, seed_accepted.
  destruct key; simpl; intros Hk Hs; try contradiction;
    destruct (HAS_MMH3 rt); simpl; eauto;
    rewrite (mmh3_seed_accepted seed (Hs eq_refl)); simpl; eauto.
Qed.

(** With [mmh3], a seed outside its range is refused whatever the text or
    bytes hashed. *)
Lemma murmur3_rejected (key : Key) (seed : Z) :
  text_or_bytes key -> ~ seed_accepted rt seed ->
  MurmurHash.murmur3_32 rt key seed = Raise (ValueError "seed is out of range") /\
  MurmurHash.murmur3_128 rt key seed = Raise (ValueError "seed is out of range").
Proof.
  unfold MurmurHash.murmur3_32, MurmurHash.murmur3_128, mmh3_hash_call,
    mmh3_hash128_call, seed_accepted.
  intros Hk Hs. destruct (HAS_MMH3 rt); [|exfalso; apply Hs; discriminate].
  assert (Hout : ~ 0 <= seed <= 0xffffffff) by (intros H; apply Hs; intros _; exact H).
  destruct key; simpl; try contradiction;
    rewrite (mmh3_seed_rejected seed Hout); split; reflexivity.
Qed.

(** An integer reaches neither backend: [mmh3] rejects it, and on the
    fallback path [bytes + int] does. *)
Lemma murmur3_32_int (n seed : Z) :
  MurmurHash.murmur3_32 rt (KInt n) seed = Raise TypeError.
Proof. unfold MurmurHash.murmur3_32. now destruct (HAS_MMH3 rt). Qed.

Lemma murmur3_128_int (n seed : Z) :
  MurmurHash.murmur3_128 rt (KInt n) seed = Raise TypeError.
Proof. unfold MurmurHash.murmur3_128. now destruct (HAS_MMH3 rt). Qed.

Lemma selected_total (config : ShardConfig) (f : Key -> Z -> Result Z)
    (key : Key) (seed : Z) :
  selected rt config f -> text_or_bytes key -> seed_accepted rt seed ->
  exists h, f key seed = Ok h.
Proof.
  intros [[_ ->]|[_ ->]] Hk Hs;
    [now apply murmur3_32_total | now apply murmur3_128_total].
Qed.

Lemma selected_rejected (config : ShardConfig) (f : Key -> Z -> Result Z)
    (key : Key) (seed : Z) :
  selected rt config f -> text_or_bytes key -> ~ seed_accepted rt seed ->
  f key seed = Raise (ValueError "seed is out of range").
Proof.
  intros [[_ ->]|[_ ->]] Hk Hs;
    [now apply murmur3_rejected | now apply murmur3_rejected].
Qed.

Lemma selected_int (config : ShardConfig) (f : Key -> Z -> Result Z) (n seed : Z) :
  selected rt config f -> f (KInt n) seed = Raise TypeError.
Proof.
  intros [[_ ->]|[_ ->]]; [apply murmur3_32_int | apply murmur3_128_int].
Qed.

(** *** Construction of a [ShardManager] *)

Lemma get_hash_function_supported (config : ShardConfig) :
  supported config ->
  exists f, ShardManager._get_hash_function rt config = Ok f /\ selected rt config f.
Proof.
  unfold ShardManager._get_hash_function, selected.
  intros [H|H]; rewrite H; simpl; eexists; split; try reflexivity; auto.
Qed.

Lemma get_hash_function_ok (config : ShardConfig) (f : Key -> Z -> Result Z) :
  ShardManager._get_hash_function rt config = Ok f ->
  supported config /\ selected rt config f.
Proof.
  unfold ShardManager._get_hash_function, supported, selected.
  destruct (String.eqb_spec (algorithm config) "murmur3_32") as [H32|_].
  - intros [= <-]. auto.
  - destruct (String.eqb_spec (algorithm config) "murmur3_128") as [H128|_].
    + intros [= <-]. auto.
    + discriminate.
Qed.

Lemma init_supported (config : ShardConfig) :
  supported config ->
  exists m, ShardManager.__init__ rt config = Ok m /\
            ShardManager.config m = config /\
            selected rt config (ShardManager._hash_func m).
Proof.
  intros Hs. destruct (get_hash_function_supported config Hs) as [f [Hf Hsel]].
  unfold ShardManager.__init__. rewrite Hf. simpl. eauto.
Qed.

Lemma init_ok (config : ShardConfig) (m : ShardManager.t) :
  ShardManager.__init__ rt config = Ok m ->
  supported config /\ ShardManager.config m = config /\
  selected rt config (ShardManager._hash_func m).
Proof.
  unfold ShardManager.__init__. intros H.
  apply bind_ok in H as [f [Hf [= <-]]].
  apply get_hash_function_ok in Hf as [Hs Hsel]. simpl. auto.
Qed.

Lemma init_unsupported (config : ShardConfig) :
  ~ supported config ->
  ShardManager.__init__ rt config =
    Raise (ValueError ("Unsupported hash algorithm: " ++ algorithm config)).
Proof.
  unfold supported, ShardManager.__init__, ShardManager._get_hash_function.
  intros Hn.
  destruct (String.eqb_spec (algorithm config) "murmur3_32"); [tauto|].
  destruct (String.eqb_spec (algorithm config) "murmur3_128"); [tauto|].
  reflexivity.
Qed.

End HashAdapter.

(** ** Routing by modulo *)

Lemma get_shard_id_unfold (m : ShardManager.t) (key : Key) (h : Z) :
  ShardManager._hash_func m (canonical key) (hash_seed (ShardManager.config m)) = Ok h ->
  ShardManager.get_shard_id m key =
    py_mod h (total_shards (ShardManager.config m)).
Proof.
  intros Hh. unfold ShardManager.get_shard_id.
  change (match key with KInt n => KStr (str n) | _ => key end) with (canonical key).
  rewrite Hh. simpl. now destruct (py_mod _ _).
Qed.

Lemma ring_get_shard_id_unfold (m : ConsistentHashShardManager.t) (key : Key) (h : Z) :
  ConsistentHashShardManager._hash_func m (canonical key)
    (hash_seed (ConsistentHashShardManager.config m)) = Ok h ->
  ConsistentHashShardManager.get_shard_id m key =
    match ConsistentHashShardManager.scan_ring (ConsistentHashShardManager._ring m) h with
    | Some shard_id => Ok shard_id
    | None =>
        match ConsistentHashShardManager._ring m with
        | [] => Raise IndexError
        | first :: _ => Ok (snd first)
        end
    end.
Proof.
  intros Hh. unfold ConsistentHashShardManager.get_shard_id.
  change (match key with KInt n => KStr (str n) | _ => key end) with (canonical key).
  now rewrite Hh.
Qed.

Lemma migrate_key_unfold (m : ShardManager.t) (key : Key) (old h : Z) :
  text_or_bytes key ->
  ShardManager._hash_func m key (hash_seed (ShardManager.config m)) = Ok h ->
  old <> 0 -> total_shards (ShardManager.config m) <> 0 ->
  ShardManager.migrate_key m key old =
    Ok (h mod old, h mod total_shards (ShardManager.config m),
        negb (h mod old =? h mod total_shards (ShardManager.config m))).
Proof.
  intros Hk Hh Hold Hnew. unfold ShardManager.migrate_key.
  rewrite Hh. simpl. rewrite (py_mod_nonzero h old Hold). simpl.
  assert (Hc : canonical key = key) by (destruct key; [reflexivity | contradiction | reflexivity]).
  rewrite (get_shard_id_unfold m key h) by (now rewrite Hc).
  now rewrite (py_mod_nonzero h _ Hnew).
Qed.

(** C2.  A [ShardManager] built from a config with a supported tag and
    [total_shards >= 1] routes every key (text, integer or bytes) by the
    hash function the tag selects: whenever that function returns [h] on the
    canonical key and the config's seed, [get_shard_id] returns
    [h mod total_shards]; and the hash function does return when the backend
    accepts the seed. *)
Theorem get_shard_id_modulo (rt : Runtime) (config : ShardConfig) (key : Key) :
  supported config -> 1 <= total_shards config ->
  exists m,
    ShardManager.__init__ rt config = Ok m /\
    selected rt config (ShardManager._hash_func m) /\
    (forall h,
        ShardManager._hash_func m (canonical key) (hash_seed config) = Ok h ->
        ShardManager.get_shard_id m key = Ok (h mod total_shards config)) /\
    (seed_accepted rt (hash_seed config) ->
     exists h,
       ShardManager._hash_func m (canonical key) (hash_seed config) = Ok h /\
       ShardManager.get_shard_id m key = Ok (h mod total_shards config)).
Proof.
  intros Hs Hts.
  destruct (init_supported rt config Hs) as [m [Hinit [Hcfg Hsel]]].
  assert (Hmod : forall h,
             ShardManager._hash_func m (canonical key) (hash_seed config) = Ok h ->
             ShardManager.get_shard_id m key = Ok (h mod total_shards config)).
  { intros h Hh.
    rewrite (get_shard_id_unfold m key h) by (now rewrite Hcfg).
    rewrite Hcfg. apply py_mod_nonzero. lia. }
  exists m. split; [assumption|]. split; [assumption|]. split; [exact Hmod|].
  intros Hseed.
  destruct (selected_total rt config _ (canonical key) (hash_seed config) Hsel
              (canonical_text_or_bytes key) Hseed) as [h Hh].
  exists h. split; [exact Hh | now apply Hmod].
Qed.

Lemma get_shard_id_modulo_witness :
  supported sample_config /\ 1 <= total_shards sample_config /\
  seed_accepted (sample_runtime true) (hash_seed sample_config) /\
  exists m h,
    ShardManager.__init__ (sample_runtime true) sample_config = Ok m /\
    selected (sample_runtime true) sample_config (ShardManager._hash_func m) /\
    ShardManager._hash_func m (canonical (KInt 123)) (hash_seed sample_config) = Ok h /\
    ShardManager.get_shard_id m (KInt 123) = Ok (h mod total_shards sample_config).
Proof.
  assert (Hs : supported sample_config) by (left; reflexivity).
  assert (Hseed : seed_accepted (sample_runtime true) (hash_seed sample_config))
    by (intros _; simpl; lia).
  split; [exact Hs|]. split; [simpl; lia|]. split; [exact Hseed|].
  destruct (get_shard_id_modulo (sample_runtime true) sample_config (KInt 123) Hs
              ltac:(simpl; lia)) as [m [Hm [Hsel [_ Hok]]]].
  destruct (Hok Hseed) as [h [Hh Hid]].
  exists m, h. auto.
Defined.

(** C3, as the code has it.  The constructor of [ShardManager] inspects the
    algorithm tag and nothing else: with a supported tag and
    [total_shards < 1] it returns an instance holding that config.  When
    [total_shards] is zero the failure comes from the routing call: with a
    seed the hash backend accepts, [get_shard_id] raises
    [ZeroDivisionError] on every key. *)
Theorem init_accepts_any_shard_count (rt : Runtime) (config : ShardConfig) :
  total_shards config < 1 -> supported config ->
  exists m,
    ShardManager.__init__ rt config = Ok m /\
    ShardManager.config m = config /\
    (total_shards config = 0 -> seed_accepted rt (hash_seed config) ->
     forall key, ShardManager.get_shard_id m key = Raise ZeroDivisionError).
Proof.
  intros _ Hs.
  destruct (init_supported rt config Hs) as [m [Hinit [Hcfg Hsel]]].
  exists m. repeat split; try assumption.
  intros Hz Hseed key.
  destruct (selected_total rt config _ (canonical key) (hash_seed config) Hsel
              (canonical_text_or_bytes key) Hseed) as [h Hh].
  rewrite (get_shard_id_unfold m key h) by (now rewrite Hcfg).
  rewrite Hcfg, Hz. reflexivity.
Qed.

Lemma init_accepts_any_shard_count_witness :
  total_shards zero_shards_config < 1 /\ supported zero_shards_config /\
  exists m,
    ShardManager.__init__ (sample_runtime true) zero_shards_config = Ok m /\
    ShardManager.config m = zero_shards_config /\
    (total_shards zero_shards_config = 0 ->
     seed_accepted (sample_runtime true) (hash_seed zero_shards_config) ->
     forall key, ShardManager.get_shard_id m key = Raise ZeroDivisionError).
Proof.
  split; [simpl; lia|].
  split; [left; reflexivity|].
  apply (init_accepts_any_shard_count (sample_runtime true) zero_shards_config);
    [simpl; lia | left; reflexivity].
Defined.

(** C3, refuted as stated: with [total_shards = 0] the constructor raises
    nothing; the error appears at the first routing call. *)
Lemma init_zero_shards_not_rejected :
  total_shards zero_shards_config < 1 /\
  (forall e, ShardManager.__init__ (sample_runtime true) zero_shards_config <> Raise e) /\
  exists m,
    ShardManager.__init__ (sample_runtime true) zero_shards_config = Ok m /\
    ShardManager.get_shard_id m (KStr "user_123") = Raise ZeroDivisionError.
Proof.
  split; [simpl; lia|].
  split; [intros e; discriminate|].
  eexists. split; reflexivity.
Qed.

(** ** Resharding analysis *)

(** C7, at the input where the code departs from it.  On the manager
    [create_user_shard_manager(5, 42)], [migrate_key(123, 3)] raises
    [TypeError]: the integer is handed to the hash function as it is.  The
    triple the claim describes exists, it is what [migrate_key("123", 3)]
    returns, and [get_shard_id(123)] gives its second component. *)
Theorem migrate_key_integer_key_raises (rt : Runtime) :
  exists m h,
    create_user_shard_manager rt 5 42 = Ok m /\
    ShardManager._hash_func m (canonical (KInt 123)) 42 = Ok h /\
    ShardManager.get_shard_id m (KInt 123) = Ok (h mod 5) /\
    ShardManager.migrate_key m (KStr "123") 3 =
      Ok (h mod 3, h mod 5, negb (h mod 3 =? h mod 5)) /\
    ShardManager.migrate_key m (KInt 123) 3 = Raise TypeError.
Proof.
  unfold create_user_shard_manager.
  set (config := {| total_shards := 5; hash_seed := 42; algorithm := "murmur3_32" |}).
  assert (Hs : supported config) by (left; reflexivity).
  destruct (init_supported rt config Hs) as [m [Hinit [Hcfg Hsel]]].
  assert (Hseed : seed_accepted rt 42) by (intros _; lia).
  destruct (selected_total rt config _ (canonical (KInt 123)) 42 Hsel
              (canonical_text_or_bytes _) Hseed) as [h Hh].
  exists m, h. split; [assumption|]. split; [assumption|].
  split; [|split].
  - rewrite (get_shard_id_unfold m (KInt 123) h) by (now rewrite Hcfg).
    now rewrite Hcfg.
  - rewrite (migrate_key_unfold m (KStr "123") 3 h); rewrite ?Hcfg; simpl;
      try reflexivity; try lia; try exact I; exact Hh.
  - unfold ShardManager.migrate_key.
    now rewrite (selected_int rt config _ 123 _ Hsel).
Qed.

(** C10.  [migrate_key] hashes the key it was given, without the
    integer-to-text step of [get_shard_id]: on every manager built from a
    supported config, for every integer [n] and every [old_total_shards], the
    hash function receives the integer and raises [TypeError], and so does
    [migrate_key]; while [migrate_key(str(n), old)] (seed accepted by the
    backend, both shard counts non zero) returns a triple, whose new shard
    id is the one [get_shard_id(n)] returns. *)
Theorem migrate_key_skips_canonicalization (rt : Runtime) (config : ShardConfig) :
  supported config ->
  exists m,
    ShardManager.__init__ rt config = Ok m /\
    (forall n old : Z,
        ShardManager._hash_func m (KInt n) (hash_seed config) = Raise TypeError /\
        ShardManager.migrate_key m (KInt n) old = Raise TypeError) /\
    (forall n old : Z,
        seed_accepted rt (hash_seed config) ->
        old <> 0 -> total_shards config <> 0 ->
        exists old_shard_id new_shard_id needs_migration,
          ShardManager.migrate_key m (KStr (str n)) old =
            Ok (old_shard_id, new_shard_id, needs_migration) /\
          ShardManager.get_shard_id m (KInt n) = Ok new_shard_id).
Proof.
  intros Hs.
  destruct (init_supported rt config Hs) as [m [Hinit [Hcfg Hsel]]].
  exists m. split; [assumption|]. split.
  - intros n old.
    pose proof (selected_int rt config _ n (hash_seed config) Hsel) as Hint.
    split; [assumption|].
    unfold ShardManager.migrate_key. rewrite Hcfg. now rewrite Hint.
  - intros n old Hseed Hold Hts.
    destruct (selected_total rt config _ (KStr (str n)) (hash_seed config) Hsel I Hseed)
      as [h Hh].
    exists (h mod old), (h mod total_shards config),
      (negb (h mod old =? h mod total_shards config)).
    subst config. split.
    + now apply migrate_key_unfold.
    + rewrite (get_shard_id_unfold m (KInt n) h) by assumption.
      now apply py_mod_nonzero.
Qed.

Lemma migrate_key_skips_canonicalization_witness :
  supported sample_config /\
  exists m,
    ShardManager.__init__ (sample_runtime false) sample_config = Ok m /\
    (forall n old : Z,
        ShardManager._hash_func m (KInt n) (hash_seed sample_config) = Raise TypeError /\
        ShardManager.migrate_key m (KInt n) old = Raise TypeError) /\
    (forall n old : Z,
        seed_accepted (sample_runtime false) (hash_seed sample_config) ->
        old <> 0 -> total_shards sample_config <> 0 ->
        exists old_shard_id new_shard_id needs_migration,
          ShardManager.migrate_key m (KStr (str n)) old =
            Ok (old_shard_id, new_shard_id, needs_migration) /\
          ShardManager.get_shard_id m (KInt n) = Ok new_shard_id).
Proof.
  split; [left; reflexivity|].
  apply (migrate_key_skips_canonicalization (sample_runtime false) sample_config).
  left; reflexivity.
Defined.

(** ** Range of the hash values *)

Lemma land_ones_range (a n : Z) : 0 <= n -> 0 <= Z.land a (Z.ones n) <= 2 ^ n - 1.
Proof.
  intros Hn. rewrite Z.land_ones by assumption.
  pose proof (Z.mod_pos_bound a (2 ^ n) (Z.pow_pos_nonneg 2 n ltac:(lia) Hn)). lia.
Qed.

Lemma land_mask32 (a : Z) : 0 <= Z.land a 0xffffffff <= 2 ^ 32 - 1.
Proof. change 0xffffffff with (Z.ones 32). apply land_ones_range. lia. Qed.

Lemma land_mask63 (a : Z) : 0 <= Z.land a 0x7fffffffffffffff <= 2 ^ 63 - 1.
Proof. change 0x7fffffffffffffff with (Z.ones 63). apply land_ones_range. lia. Qed.

Lemma murmur3_32_range (rt : Runtime) (key : Key) (seed h : Z) :
  MurmurHash.murmur3_32 rt key seed = Ok h -> 0 <= h <= 2 ^ 32 - 1.
Proof.
  unfold MurmurHash.murmur3_32, mmh3_hash_call. destruct (HAS_MMH3 rt).
  - intros H. apply bind_ok in H as [b [_ H]]. apply bind_ok in H as [s [_ H]].
    injection H as <-. apply land_mask32.
  - intros H. apply bind_ok in H as [combined [_ H]].
    injection H as <-. apply land_mask32.
Qed.

Lemma murmur3_128_range (rt : Runtime) (key : Key) (seed h : Z) :
  MurmurHash.murmur3_128 rt key seed = Ok h -> 0 <= h <= 2 ^ 63 - 1.
Proof.
  unfold MurmurHash.murmur3_128. destruct (HAS_MMH3 rt).
  - intros H. apply bind_ok in H as [hash_128 [_ H]].
    injection H as <-. apply land_mask63.
  - intros H. apply bind_ok in H as [combined [_ H]].
    injection H as <-. apply land_mask63.
Qed.

(** C9, as the code has it.  For every text or bytes key and every seed the
    hash backend accepts (any integer on the fallback path, [0 <= seed <=
    2^32 - 1] with [mmh3]), [murmur3_32] returns a value in
    [[0, 2^32 - 1]] and [murmur3_128] one in [[0, 2^63 - 1]], on both paths:
    the fallback and the 128-bit results are masked, and
    [mmh3.hash(..., signed=False)] is the unsigned reading of a 32-bit
    word. *)
Theorem murmur_hash_range (rt : Runtime) (key : Key) (seed : Z) :
  seed_accepted rt seed -> text_or_bytes key ->
  (exists h, MurmurHash.murmur3_32 rt key seed = Ok h /\ 0 <= h <= 2 ^ 32 - 1) /\
  (exists h, MurmurHash.murmur3_128 rt key seed = Ok h /\ 0 <= h <= 2 ^ 63 - 1).
Proof.
  intros Hseed Hk. split.
  - destruct (murmur3_32_total rt key seed Hk Hseed) as [h Hh].
    exists h. split; [assumption | now apply murmur3_32_range in Hh].
  - destruct (murmur3_128_total rt key seed Hk Hseed) as [h Hh].
    exists h. split; [assumption | now apply murmur3_128_range in Hh].
Qed.

Lemma murmur_hash_range_witness :
  seed_accepted (sample_runtime true) 42 /\ text_or_bytes (KStr "user_123") /\
  (exists h, MurmurHash.murmur3_32 (sample_runtime true) (KStr "user_123") 42 = Ok h /\
             0 <= h <= 2 ^ 32 - 1) /\
  (exists h, MurmurHash.murmur3_128 (sample_runtime true) (KStr "user_123") 42 = Ok h /\
             0 <= h <= 2 ^ 63 - 1).
Proof.
  assert (Hseed : seed_accepted (sample_runtime true) 42) by (intros _; lia).
  split; [exact Hseed|].
  split; [exact I|].
  apply (murmur_hash_range (sample_runtime true) (KStr "user_123") 42 Hseed I).
Defined.

(** C9, refuted as stated: with [mmh3], a seed below zero or above
    [2^32 - 1] makes both functions raise [ValueError] instead of returning
    an integer. *)
Lemma murmur_hash_rejects_seed :
  (forall h, MurmurHash.murmur3_32 (sample_runtime true) (KStr "a") (-1) <> Ok h) /\
  MurmurHash.murmur3_32 (sample_runtime true) (KStr "a") (-1) =
    Raise (ValueError "seed is out of range") /\
  (forall h, MurmurHash.murmur3_128 (sample_runtime true) (KBytes ["a"%byte])
               (2 ^ 32) <> Ok h) /\
  MurmurHash.murmur3_128 (sample_runtime true) (KBytes ["a"%byte]) (2 ^ 32) =
    Raise (ValueError "seed is out of range").
Proof.
  repeat split; try reflexivity; intros h; discriminate.
Qed.

(** ** The ring *)

Lemma list_prod_nil_r {A B : Type} (xs : list A) : list_prod xs (@nil B) = [].
Proof. induction xs; simpl; auto. Qed.

Lemma selected_text_values (rt : Runtime) (config : ShardConfig)
    (f : Key -> Z -> Result Z) (seed : Z) :
  selected rt config f -> seed_accepted rt seed ->
  exists g, forall s, f (KStr s) seed = Ok (g s).
Proof.
  unfold seed_accepted. intros [[_ ->]|[_ ->]] Hseed;
    unfold MurmurHash.murmur3_32, MurmurHash.murmur3_128, mmh3_hash_call,
      mmh3_hash128_call;
    destruct (HAS_MMH3 rt); simpl;
    try rewrite (mmh3_seed_accepted seed (Hseed eq_refl)); simpl;
    eexists; intros s; reflexivity.
Qed.

Lemma build_hash_ring_entries (config : ShardConfig)
    (f : Key -> Z -> Result Z) (vn : Z) (g : string -> Z) :
  (forall s, f (KStr s) (hash_seed config) = Ok (g s)) ->
  ConsistentHashShardManager._build_hash_ring config f vn =
    Ok (sort_by_hash
          (map (ring_entry g) (list_prod (range (total_shards config)) (range vn)))).
Proof.
  intros Hg. unfold ConsistentHashShardManager._build_hash_ring.
  rewrite (for_each_append (range (total_shards config)) _
             (fun shard_id =>
                flat_map (fun vnode => [ring_entry g (shard_id, vnode)]) (range vn))).
  - simpl. f_equal. f_equal.
    rewrite <- (flat_map_list_prod (ring_entry g)).
    apply flat_map_ext. intros shard_id. apply flat_map_singleton.
  - intros shard_id acc _.
    apply for_each_append. intros vnode acc' _.
    now rewrite Hg.
Qed.

Lemma ring_init_supported (rt : Runtime) (config : ShardConfig) (vn : Z) :
  supported config -> seed_accepted rt (hash_seed config) ->
  exists m g,
    ConsistentHashShardManager.__init__ rt config vn = Ok m /\
    ConsistentHashShardManager.config m = config /\
    ConsistentHashShardManager.virtual_nodes m = vn /\
    selected rt config (ConsistentHashShardManager._hash_func m) /\
    (forall s, ConsistentHashShardManager._hash_func m (KStr s) (hash_seed config) =
               Ok (g s)) /\
    ConsistentHashShardManager._ring m =
      sort_by_hash
        (map (ring_entry g) (list_prod (range (total_shards config)) (range vn))).
Proof.
  intros Hs Hseed.
  destruct (init_supported rt config Hs) as [super [Hinit [Hcfg Hsel]]].
  destruct (selected_text_values rt config _ (hash_seed config) Hsel Hseed) as [g Hg].
  unfold ConsistentHashShardManager.__init__. rewrite Hinit. simpl.
  rewrite Hcfg, (build_hash_ring_entries config _ vn g Hg). simpl.
  eexists. exists g. split; [reflexivity|]. simpl. auto.
Qed.

(** With no shard or no virtual node the loops hash nothing: the
    constructor returns an instance with an empty ring, whatever the seed. *)
Lemma ring_init_empty (rt : Runtime) (config : ShardConfig) (vn : Z) :
  supported config -> total_shards config < 1 \/ vn < 1 ->
  exists m,
    ConsistentHashShardManager.__init__ rt config vn = Ok m /\
    ConsistentHashShardManager.config m = config /\
    selected rt config (ConsistentHashShardManager._hash_func m) /\
    ConsistentHashShardManager._ring m = [].
Proof.
  intros Hs Hempty.
  destruct (init_supported rt config Hs) as [super [Hinit [Hcfg Hsel]]].
  unfold ConsistentHashShardManager.__init__. rewrite Hinit. simpl.
  assert (Hbuild : ConsistentHashShardManager._build_hash_ring
                     (ShardManager.config super) (ShardManager._hash_func super) vn =
                   Ok []).
  { unfold ConsistentHashShardManager._build_hash_ring. rewrite Hcfg.
    destruct Hempty as [Hts|Hvn].
    - now rewrite (range_nonpos (total_shards config)) by lia.
    - rewrite (range_nonpos vn) by lia.
      rewrite (for_each_append (range (total_shards config)) _ (fun _ => []));
        [|intros; simpl; now rewrite app_nil_r].
      simpl. f_equal. f_equal.
      induction (range (total_shards config)); simpl; auto. }
  rewrite Hbuild. simpl. eexists. split; [reflexivity|]. simpl. auto.
Qed.

Lemma range_positive (n : Z) : 1 <= n -> exists rest, range n = 0 :: rest.
Proof.
  intros Hn. unfold range.
  destruct (Z.to_nat n) as [|k] eqn:Hk; [lia|]. simpl. eauto.
Qed.

(** With a shard and a virtual node to hash, a seed the backend refuses
    makes the constructor raise at the first virtual node. *)
Lemma ring_init_rejected (rt : Runtime) (config : ShardConfig) (vn : Z) :
  supported config -> ~ seed_accepted rt (hash_seed config) ->
  1 <= total_shards config -> 1 <= vn ->
  ConsistentHashShardManager.__init__ rt config vn =
    Raise (ValueError "seed is out of range").
Proof.
  intros Hs Hseed Hts Hvn.
  destruct (init_supported rt config Hs) as [super [Hinit [Hcfg Hsel]]].
  unfold ConsistentHashShardManager.__init__. rewrite Hinit. simpl.
  unfold ConsistentHashShardManager._build_hash_ring. rewrite Hcfg.
  destruct (range_positive _ Hts) as [shards ->].
  destruct (range_positive _ Hvn) as [vnodes ->].
  simpl.
  now rewrite (selected_rejected rt config _ (KStr (vnode_key 0 0)) (hash_seed config)
                 Hsel I Hseed).
Qed.

(** What a constructed ring with a shard and a virtual node tells: the seed
    was accepted, and the ring is the sorted list of the entries. *)
Lemma ring_constructed (rt : Runtime) (config : ShardConfig) (vn : Z)
    (r : ConsistentHashShardManager.t) :
  ConsistentHashShardManager.__init__ rt config vn = Ok r ->
  1 <= total_shards config -> 1 <= vn ->
  supported config /\ seed_accepted rt (hash_seed config) /\
  exists g,
    ConsistentHashShardManager.config r = config /\
    selected rt config (ConsistentHashShardManager._hash_func r) /\
    (forall s, ConsistentHashShardManager._hash_func r (KStr s) (hash_seed config) =
               Ok (g s)) /\
    ConsistentHashShardManager._ring r =
      sort_by_hash
        (map (ring_entry g) (list_prod (range (total_shards config)) (range vn))).
Proof.
  intros Hinit Hts Hvn.
  assert (Hs : supported config).
  { unfold ConsistentHashShardManager.__init__ in Hinit.
    apply bind_ok in Hinit as [super [Hsuper _]].
    now apply init_ok in Hsuper. }
  split; [assumption|].
  destruct (seed_accepted_dec rt (hash_seed config)) as [Hseed|Hseed].
  - split; [assumption|].
    destruct (ring_init_supported rt config vn Hs Hseed)
      as [r' [g [Hinit' [Hcfg [_ [Hsel [Hg Hring]]]]]]].
    assert (r' = r) by congruence. subst r'. eauto.
  - rewrite (ring_init_rejected rt config vn Hs Hseed Hts Hvn) in Hinit.
    discriminate Hinit.
Qed.

Lemma ring_entries_shape (g : string -> Z) (f : Key -> Z -> Result Z) (seed : Z)
    (pairs : list (Z * Z)) :
  (forall s, f (KStr s) seed = Ok (g s)) ->
  Forall2 (fun p e => f (KStr (vnode_key (fst p) (snd p))) seed = Ok (fst e) /\
                      snd e = fst p)
          pairs (map (ring_entry g) pairs).
Proof.
  intros Hg. induction pairs as [|[shard_id vnode] pairs IH]; simpl; constructor.
  - simpl. auto.
  - exact IH.
Qed.

Lemma ring_shard_in_range (g : string -> Z) (ts vn : Z) (e : Z * Z) :
  In e (sort_by_hash (map (ring_entry g) (list_prod (range ts) (range vn)))) ->
  0 <= snd e < ts.
Proof.
  intros He.
  apply (Permutation_in _ (Permutation_sym (sort_by_hash_perm _))) in He.
  apply in_map_iff in He as [[shard_id vnode] [<- Hp]].
  apply in_prod_iff in Hp as [Hs _]. simpl. now apply In_range.
Qed.

Lemma ring_length (g : string -> Z) (ts vn : Z) :
  0 <= ts -> 0 <= vn ->
  List.length (sort_by_hash (map (ring_entry g) (list_prod (range ts) (range vn)))) =
    Z.to_nat (ts * vn).
Proof.
  intros Hts Hvn.
  rewrite <- (Permutation_length (sort_by_hash_perm _)).
  rewrite length_map, length_prod, !range_length. lia.
Qed.

(** *** The scan *)

Lemma scan_ring_some (ring : list (Z * Z)) (h shard_id : Z) :
  ConsistentHashShardManager.scan_ring ring h = Some shard_id ->
  exists i e,
    nth_error ring i = Some e /\ snd e = shard_id /\ h <= fst e /\
    forall j e', (j < i)%nat -> nth_error ring j = Some e' -> fst e' < h.
Proof.
  induction ring as [|[ring_hash sid] ring IH]; simpl; [discriminate|].
  destruct (Z.geb_spec ring_hash h) as [Hge|Hlt].
  - intros [= <-]. exists 0%nat, (ring_hash, sid). simpl.
    repeat split; try lia.
  - intros Hscan. destruct (IH Hscan) as [i [e [Hnth [Hsnd [Hle Hbefore]]]]].
    exists (S i), e. simpl. repeat split; try assumption.
    intros [|j] e' Hj; simpl.
    + intros [= <-]. simpl. lia.
    + apply Hbefore. lia.
Qed.

Lemma scan_ring_none (ring : list (Z * Z)) (h : Z) :
  ConsistentHashShardManager.scan_ring ring h = None ->
  forall e, In e ring -> fst e < h.
Proof.
  induction ring as [|[ring_hash sid] ring IH]; simpl; [contradiction|].
  destruct (Z.geb_spec ring_hash h) as [Hge|Hlt]; [discriminate|].
  intros Hscan e [<-|He]; [simpl; lia | now apply IH].
Qed.

Lemma ring_nonempty (g : string -> Z) (ts vn : Z) :
  1 <= ts -> 1 <= vn ->
  sort_by_hash (map (ring_entry g) (list_prod (range ts) (range vn))) <> [].
Proof.
  intros Hts Hvn Hnil.
  pose proof (ring_length g ts vn ltac:(lia) ltac:(lia)) as Hlen.
  rewrite Hnil in Hlen. simpl in Hlen. nia.
Qed.

(** On a ring that is not empty a lookup returns the shard id of one of its
    entries. *)
Lemma ring_lookup_returns_entry (m : ConsistentHashShardManager.t) (key : Key) (h : Z) :
  ConsistentHashShardManager._hash_func m (canonical key)
    (hash_seed (ConsistentHashShardManager.config m)) = Ok h ->
  ConsistentHashShardManager._ring m <> [] ->
  exists e,
    In e (ConsistentHashShardManager._ring m) /\
    ConsistentHashShardManager.get_shard_id m key = Ok (snd e).
Proof.
  intros Hh Hne. rewrite (ring_get_shard_id_unfold m key h Hh).
  destruct (ConsistentHashShardManager.scan_ring (ConsistentHashShardManager._ring m) h)
    as [shard_id|] eqn:Hscan.
  - apply scan_ring_some in Hscan as [i [e [Hnth [<- _]]]].
    exists e. split; [now apply nth_error_In with i | reflexivity].
  - destruct (ConsistentHashShardManager._ring m) as [|first rest]; [contradiction|].
    exists first. split; [now left | reflexivity].
Qed.

Lemma get_shard_id_method_spec (m : ConsistentHashShardManager.t) (key : Key) :
  ConsistentHashShardManager.get_shard_id_method key m =
    (ConsistentHashShardManager.get_shard_id m key, m).
Proof.
  unfold ConsistentHashShardManager.get_shard_id_method,
    ConsistentHashShardManager.get_shard_id, then_, attr, eval.
  destruct (ConsistentHashShardManager._hash_func m _ _) as [hash_value|e];
    simpl; [|reflexivity].
  destruct (ConsistentHashShardManager.scan_ring _ hash_value); [reflexivity|].
  now destruct (ConsistentHashShardManager._ring m).
Qed.

(** C8.  With a supported tag, a seed the backend accepts,
    [total_shards >= 1] and [virtual_nodes >= 1] the constructor returns an
    instance whose ring has exactly [total_shards * virtual_nodes] entries: a
    rearrangement of the entries [(hash("shard_<s>_vnode_<v>", seed), s)]
    taken over [s] in [[0, total_shards)] and [v] in [[0, virtual_nodes)], in
    ascending order of hash value.  A lookup, run with the object threaded
    through its statements, returns what [get_shard_id] returns and leaves
    the object, ring included, as the constructor built it. *)
Theorem ring_built_sorted (rt : Runtime) (config : ShardConfig) (vn : Z) :
  supported config -> seed_accepted rt (hash_seed config) ->
  1 <= total_shards config -> 1 <= vn ->
  exists m entries,
    ConsistentHashShardManager.__init__ rt config vn = Ok m /\
    Forall2 (fun p e =>
               ConsistentHashShardManager._hash_func m
                 (KStr ("shard_" ++ str (fst p) ++ "_vnode_" ++ str (snd p)))
                 (hash_seed config) = Ok (fst e) /\
               snd e = fst p)
            (list_prod (range (total_shards config)) (range vn)) entries /\
    Permutation entries (ConsistentHashShardManager._ring m) /\
    List.length (ConsistentHashShardManager._ring m) =
      Z.to_nat (total_shards config * vn) /\
    Sorted (fun a b => fst a <= fst b) (ConsistentHashShardManager._ring m) /\
    forall key,
      ConsistentHashShardManager.get_shard_id_method key m =
        (ConsistentHashShardManager.get_shard_id m key, m).
Proof.
  intros Hs Hseed Hts Hvn.
  destruct (ring_init_supported rt config vn Hs Hseed)
    as [m [g [Hinit [Hcfg [Hvnodes [Hsel [Hg Hring]]]]]]].
  exists m, (map (ring_entry g) (list_prod (range (total_shards config)) (range vn))).
  split; [assumption|].
  split; [now apply ring_entries_shape|].
  rewrite Hring.
  split; [apply sort_by_hash_perm|].
  split; [apply ring_length; lia|].
  split; [apply sort_by_hash_sorted|].
  intros key. apply get_shard_id_method_spec.
Qed.

Lemma ring_built_sorted_witness :
  supported sample_config /\
  seed_accepted (sample_runtime true) (hash_seed sample_config) /\
  1 <= total_shards sample_config /\ 1 <= 3 /\
  exists m entries,
    ConsistentHashShardManager.__init__ (sample_runtime true) sample_config 3 = Ok m /\
    Forall2 (fun p e =>
               ConsistentHashShardManager._hash_func m
                 (KStr ("shard_" ++ str (fst p) ++ "_vnode_" ++ str (snd p)))
                 (hash_seed sample_config) = Ok (fst e) /\
               snd e = fst p)
            (list_prod (range (total_shards sample_config)) (range 3)) entries /\
    Permutation entries (ConsistentHashShardManager._ring m) /\
    List.length (ConsistentHashShardManager._ring m) =
      Z.to_nat (total_shards sample_config * 3) /\
    Sorted (fun a b => fst a <= fst b) (ConsistentHashShardManager._ring m) /\
    forall key,
      ConsistentHashShardManager.get_shard_id_method key m =
        (ConsistentHashShardManager.get_shard_id m key, m).
Proof.
  split; [left; reflexivity|].
  split; [intros _; simpl; lia|].
  split; [simpl; lia|].
  split; [lia|].
  apply (ring_built_sorted (sample_runtime true) sample_config 3);
    [left; reflexivity | intros _; simpl; lia | simpl; lia | lia].
Defined.

(** C1.  On every ring the constructor returned, built with
    [total_shards >= 1] and [virtual_nodes >= 1], [get_shard_id(k)] hashes
    the canonical key to [h] and returns the shard id of the first entry, in
    ring order, whose hash value is at least [h]; when every entry's hash
    value is below [h] it returns the shard id of the entry at index 0,
    which carries the smallest hash value of the ring. *)
Theorem ring_lookup_successor (rt : Runtime) (config : ShardConfig) (vn : Z)
    (m : ConsistentHashShardManager.t) (key : Key) :
  ConsistentHashShardManager.__init__ rt config vn = Ok m ->
  1 <= total_shards config -> 1 <= vn ->
  exists h,
    ConsistentHashShardManager._hash_func m (canonical key) (hash_seed config) = Ok h /\
    ((exists i e,
        nth_error (ConsistentHashShardManager._ring m) i = Some e /\
        h <= fst e /\
        (forall j e', (j < i)%nat ->
                      nth_error (ConsistentHashShardManager._ring m) j = Some e' ->
                      fst e' < h) /\
        ConsistentHashShardManager.get_shard_id m key = Ok (snd e))
     \/
     ((forall e, In e (ConsistentHashShardManager._ring m) -> fst e < h) /\
      exists first,
        nth_error (ConsistentHashShardManager._ring m) 0 = Some first /\
        (forall e, In e (ConsistentHashShardManager._ring m) -> fst first <= fst e) /\
        ConsistentHashShardManager.get_shard_id m key = Ok (snd first))).
Proof.
  intros Hinit Hts Hvn.
  destruct (ring_constructed rt config vn m Hinit Hts Hvn)
    as [Hs [Hseed [g [Hcfg [Hsel [Hg Hring]]]]]].
  destruct (selected_total rt config _ (canonical key) (hash_seed config) Hsel
              (canonical_text_or_bytes key) Hseed) as [h Hh].
  exists h. split; [assumption|].
  assert (Hsorted : Sorted hash_le (ConsistentHashShardManager._ring m))
    by (rewrite Hring; apply sort_by_hash_sorted).
  assert (Hlen : List.length (ConsistentHashShardManager._ring m) =
                 Z.to_nat (total_shards config * vn))
    by (rewrite Hring; apply ring_length; lia).
  rewrite (ring_get_shard_id_unfold m key h) by (now rewrite Hcfg).
  destruct (ConsistentHashShardManager.scan_ring (ConsistentHashShardManager._ring m) h)
    as [shard_id|] eqn:Hscan.
  - left. apply scan_ring_some in Hscan as [i [e [Hnth [Hsnd [Hle Hbefore]]]]].
    exists i, e. rewrite Hsnd. auto.
  - right. split; [now apply scan_ring_none|].
    destruct (ConsistentHashShardManager._ring m) as [|first rest].
    + simpl in Hlen. nia.
    + exists first. split; [reflexivity|].
      split; [now apply sorted_head_least | reflexivity].
Qed.

Lemma ring_lookup_successor_witness :
  exists m,
    ConsistentHashShardManager.__init__ (sample_runtime true) sample_config 3 = Ok m /\
    1 <= total_shards sample_config /\ 1 <= 3 /\
    exists h,
      ConsistentHashShardManager._hash_func m (canonical (KStr "user_001"))
        (hash_seed sample_config) = Ok h /\
      ((exists i e,
          nth_error (ConsistentHashShardManager._ring m) i = Some e /\
          h <= fst e /\
          (forall j e', (j < i)%nat ->
                        nth_error (ConsistentHashShardManager._ring m) j = Some e' ->
                        fst e' < h) /\
          ConsistentHashShardManager.get_shard_id m (KStr "user_001") = Ok (snd e))
       \/
       ((forall e, In e (ConsistentHashShardManager._ring m) -> fst e < h) /\
        exists first,
          nth_error (ConsistentHashShardManager._ring m) 0 = Some first /\
          (forall e, In e (ConsistentHashShardManager._ring m) -> fst first <= fst e) /\
          ConsistentHashShardManager.get_shard_id m (KStr "user_001") =
            Ok (snd first))).
Proof.
  eexists. split; [reflexivity|].
  split; [simpl; lia|].
  split; [lia|].
  apply (ring_lookup_successor (sample_runtime true) sample_config 3 _ (KStr "user_001"));
    [reflexivity | simpl; lia | lia].
Defined.

(** C5.  On every ring the constructor returned, built with
    [total_shards >= 1] and [virtual_nodes >= 1], [get_shard_id] raises on no
    key (text, integer or bytes), whether the scan finds a successor or wraps
    around, and the shard id it returns lies in [[0, total_shards)]. *)
Theorem ring_lookup_total (rt : Runtime) (config : ShardConfig) (vn : Z)
    (m : ConsistentHashShardManager.t) :
  ConsistentHashShardManager.__init__ rt config vn = Ok m ->
  1 <= total_shards config -> 1 <= vn ->
  forall key,
  exists shard_id,
    ConsistentHashShardManager.get_shard_id m key = Ok shard_id /\
    0 <= shard_id < total_shards config.
Proof.
  intros Hinit Hts Hvn key.
  destruct (ring_constructed rt config vn m Hinit Hts Hvn)
    as [Hs [Hseed [g [Hcfg [Hsel [Hg Hring]]]]]].
  destruct (selected_total rt config _ (canonical key) (hash_seed config) Hsel
              (canonical_text_or_bytes key) Hseed) as [h Hh].
  destruct (ring_lookup_returns_entry m key h) as [e [He Hlookup]].
  - now rewrite Hcfg.
  - rewrite Hring. now apply ring_nonempty.
  - exists (snd e). split; [assumption|].
    rewrite Hring in He. now apply ring_shard_in_range in He.
Qed.

Lemma ring_lookup_total_witness :
  exists m,
    ConsistentHashShardManager.__init__ (sample_runtime false) sample_config 3 = Ok m /\
    1 <= total_shards sample_config /\ 1 <= 3 /\
    forall key,
    exists shard_id,
      ConsistentHashShardManager.get_shard_id m key = Ok shard_id /\
      0 <= shard_id < total_shards sample_config.
Proof.
  eexists. split; [reflexivity|].
  split; [simpl; lia|].
  split; [lia|].
  apply (ring_lookup_total (sample_runtime false) sample_config 3);
    [reflexivity | simpl; lia | lia].
Defined.

(** C4, as the code has it.  The constructor of
    [ConsistentHashShardManager] checks neither count: with a supported tag
    and [total_shards < 1] or [virtual_nodes < 1] it returns an instance whose
    ring is empty, and the failure comes at lookup time: with a seed the hash
    backend accepts, [get_shard_id] raises [IndexError] on every key. *)
Theorem ring_init_accepts_empty_ring (rt : Runtime) (config : ShardConfig) (vn : Z) :
  supported config -> total_shards config < 1 \/ vn < 1 ->
  exists m,
    ConsistentHashShardManager.__init__ rt config vn = Ok m /\
    ConsistentHashShardManager._ring m = [] /\
    (seed_accepted rt (hash_seed config) ->
     forall key, ConsistentHashShardManager.get_shard_id m key = Raise IndexError).
Proof.
  intros Hs Hempty.
  destruct (ring_init_empty rt config vn Hs Hempty) as [m [Hinit [Hcfg [Hsel Hnil]]]].
  exists m. split; [assumption|]. split; [assumption|]. intros Hseed key.
  destruct (selected_total rt config _ (canonical key) (hash_seed config) Hsel
              (canonical_text_or_bytes key) Hseed) as [h Hh].
  rewrite (ring_get_shard_id_unfold m key h) by (now rewrite Hcfg).
  now rewrite Hnil.
Qed.

Lemma ring_init_accepts_empty_ring_witness :
  supported sample_config /\ (total_shards sample_config < 1 \/ 0 < 1) /\
  exists m,
    ConsistentHashShardManager.__init__ (sample_runtime true) sample_config 0 = Ok m /\
    ConsistentHashShardManager._ring m = [] /\
    (seed_accepted (sample_runtime true) (hash_seed sample_config) ->
     forall key, ConsistentHashShardManager.get_shard_id m key = Raise IndexError).
Proof.
  split; [left; reflexivity|].
  split; [right; lia|].
  apply (ring_init_accepts_empty_ring (sample_runtime true) sample_config 0);
    [left; reflexivity | right; lia].
Defined.

(** C4, refuted as stated: [total_shards = 0] (with the default 150 virtual
    nodes) and [virtual_nodes = 0] (with 4 shards) both pass the constructor,
    which returns an instance with an empty ring; the error is raised by the
    lookup. *)
Lemma ring_init_empty_not_rejected :
  (forall e, create_consistent_shard_manager (sample_runtime true) 0 150 42 <> Raise e) /\
  (forall e, create_consistent_shard_manager (sample_runtime true) 4 0 42 <> Raise e) /\
  (exists m,
      create_consistent_shard_manager (sample_runtime true) 0 150 42 = Ok m /\
      ConsistentHashShardManager._ring m = [] /\
      ConsistentHashShardManager.get_shard_id m (KStr "user_123") = Raise IndexError) /\
  (exists m,
      create_consistent_shard_manager (sample_runtime true) 4 0 42 = Ok m /\
      ConsistentHashShardManager._ring m = [] /\
      ConsistentHashShardManager.get_shard_id m (KStr "user_123") = Raise IndexError).
Proof.
  split; [intros e; discriminate|].
  split; [intros e; discriminate|].
  split; eexists; repeat split; reflexivity.
Qed.

(** C6.  A router and a ring built from the same config (supported tag, a
    seed the backend accepts, [total_shards >= 1], [virtual_nodes >= 1]) each
    route an integer [n] and its decimal text [str(n)] to the same shard. *)
Theorem integer_key_routes_as_text (rt : Runtime) (config : ShardConfig) (vn n : Z) :
  supported config -> seed_accepted rt (hash_seed config) ->
  1 <= total_shards config -> 1 <= vn ->
  exists router ring shard_id ring_shard_id,
    ShardManager.__init__ rt config = Ok router /\
    ConsistentHashShardManager.__init__ rt config vn = Ok ring /\
    ShardManager.get_shard_id router (KInt n) = Ok shard_id /\
    ShardManager.get_shard_id router (KStr (str n)) = Ok shard_id /\
    ConsistentHashShardManager.get_shard_id ring (KInt n) = Ok ring_shard_id /\
    ConsistentHashShardManager.get_shard_id ring (KStr (str n)) = Ok ring_shard_id.
Proof.
  intros Hs Hseed Hts Hvn.
  destruct (init_supported rt config Hs) as [router [Hinit [Hcfg Hsel]]].
  destruct (ring_init_supported rt config vn Hs Hseed)
    as [ring [g [Hrinit [Hrcfg [_ [Hrsel [_ Hring]]]]]]].
  destruct (selected_total rt config _ (canonical (KInt n)) (hash_seed config) Hsel
              (canonical_text_or_bytes _) Hseed) as [h Hh].
  destruct (selected_total rt config _ (canonical (KInt n)) (hash_seed config) Hrsel
              (canonical_text_or_bytes _) Hseed) as [h' Hh'].
  destruct (ring_lookup_returns_entry ring (KInt n) h') as [e [_ Hlookup]].
  - now rewrite Hrcfg.
  - rewrite Hring. now apply ring_nonempty.
  - exists router, ring, (h mod total_shards config), (snd e).
    split; [assumption|]. split; [assumption|].
    assert (Hroute : ShardManager.get_shard_id router (KInt n) =
                     Ok (h mod total_shards config)).
    { rewrite (get_shard_id_unfold router (KInt n) h) by (now rewrite Hcfg).
      rewrite Hcfg. apply py_mod_nonzero. lia. }
    split; [exact Hroute|]. split; [exact Hroute|].
    split; exact Hlookup.
Qed.

Lemma integer_key_routes_as_text_witness :
  supported sample_config /\
  seed_accepted (sample_runtime true) (hash_seed sample_config) /\
  1 <= total_shards sample_config /\ 1 <= 3 /\
  exists router ring shard_id ring_shard_id,
    ShardManager.__init__ (sample_runtime true) sample_config = Ok router /\
    ConsistentHashShardManager.__init__ (sample_runtime true) sample_config 3 = Ok ring /\
    ShardManager.get_shard_id router (KInt 123) = Ok shard_id /\
    ShardManager.get_shard_id router (KStr (str 123)) = Ok shard_id /\
    ConsistentHashShardManager.get_shard_id ring (KInt 123) = Ok ring_shard_id /\
    ConsistentHashShardManager.get_shard_id ring (KStr (str 123)) = Ok ring_shard_id.
Proof.
  split; [left; reflexivity|].
  split; [intros _; simpl; lia|].
  split; [simpl; lia|].
  split; [lia|].
  apply (integer_key_routes_as_text (sample_runtime true) sample_config 3 123);
    [left; reflexivity | intros _; simpl; lia | simpl; lia | lia].
Defined.

(** * Further properties of the module and of its example router *)

(** ** Text of integers *)

Lemma int_of_str (n : Z) : NilZero.int_of_string (str n) = Some (Z.to_int n).
Proof.
  unfold str. apply NilZero.isi; destruct n; simpl; try discriminate;
    intros [= H]; now apply (Unsigned.to_uint_nonnil p).
Qed.

Lemma str_inj (a b : Z) : str a = str b -> a = b.
Proof.
  intros H. apply DecimalZ.to_int_inj.
  pose proof (int_of_str a) as Ha. rewrite H, int_of_str in Ha. congruence.
Qed.

Lemma string_length_app (a b : string) :
  String.length (a ++ b) = (String.length a + String.length b)%nat.
Proof. induction a as [|c a IH]; simpl; [reflexivity | now rewrite IH]. Qed.

Lemma string_app_assoc (a b c : string) : ((a ++ b) ++ c = a ++ (b ++ c))%string.
Proof. induction a as [|x a IH]; simpl; [reflexivity | now rewrite IH]. Qed.

Lemma string_app_inv_head (s a b : string) : (s ++ a = s ++ b)%string -> a = b.
Proof. induction s as [|c s IH]; simpl; [auto | intros [= H]; auto]. Qed.

Lemma string_app_inv_tail (t a b : string) : (a ++ t = b ++ t)%string -> a = b.
Proof.
  revert b. induction a as [|c a IH]; intros [|c' b] H; simpl in H.
  - reflexivity.
  - apply (f_equal String.length) in H. simpl in H.
    rewrite string_length_app in H. lia.
  - apply (f_equal String.length) in H. simpl in H.
    rewrite string_length_app in H. lia.
  - injection H as -> H. f_equal. now apply IH.
Qed.

(** ** Dictionaries *)

Lemma dict_get_set_same {V : Type} (d : dict V) (k : Z) (v : V) :
  dict_get (dict_set d k v) k = Some v.
Proof.
  induction d as [|[k' v'] d IH]; simpl.
  - now rewrite Z.eqb_refl.
  - destruct (Z.eqb_spec k' k) as [->|Hne]; simpl.
    + now rewrite Z.eqb_refl.
    + destruct (Z.eqb_spec k' k); [contradiction | exact IH].
Qed.

Lemma dict_get_set_other {V : Type} (d : dict V) (k k' : Z) (v : V) :
  k' <> k -> dict_get (dict_set d k v) k' = dict_get d k'.
Proof.
  intros Hne. induction d as [|[k0 v0] d IH]; simpl.
  - destruct (Z.eqb_spec k k'); [congruence | reflexivity].
  - destruct (Z.eqb_spec k0 k) as [->|Hk0]; simpl.
    + destruct (Z.eqb_spec k k'); [congruence | reflexivity].
    + destruct (Z.eqb_spec k0 k'); [reflexivity | exact IH].
Qed.

Lemma dict_get_none_keys {V : Type} (d : dict V) (k : Z) :
  dict_get d k = None <-> ~ In k (dict_keys d).
Proof.
  induction d as [|[k' v'] d IH]; simpl.
  - tauto.
  - destruct (Z.eqb_spec k' k) as [->|Hne].
    + split; [discriminate | intros H; exfalso; apply H; now left].
    + rewrite IH. tauto.
Qed.

Lemma dict_get_some_keys {V : Type} (d : dict V) (k : Z) (v : V) :
  dict_get d k = Some v -> In k (dict_keys d).
Proof.
  intros H. destruct (in_dec Z.eq_dec k (dict_keys d)) as [Hin|Hout]; [assumption|].
  apply dict_get_none_keys in Hout. congruence.
Qed.

Lemma dict_set_fresh {V : Type} (d : dict V) (k : Z) (v : V) :
  dict_get d k = None -> dict_set d k v = d ++ [(k, v)].
Proof.
  induction d as [|[k' v'] d IH]; simpl; [reflexivity|].
  destruct (k' =? k); [discriminate | intros H; now rewrite IH].
Qed.

Lemma dict_set_present_keys {V : Type} (d : dict V) (k : Z) (v : V) :
  dict_get d k <> None -> dict_keys (dict_set d k v) = dict_keys d.
Proof.
  induction d as [|[k' v'] d IH]; simpl; [congruence|].
  destruct (Z.eqb_spec k' k) as [->|Hne]; simpl; [reflexivity|].
  intros H. now rewrite IH.
Qed.

Lemma dict_get_map_fresh {V : Type} (entry : Z -> V) (l : list Z) (k : Z) :
  dict_get (map (fun s => (s, entry s)) l) k =
    if in_dec Z.eq_dec k l then Some (entry k) else None.
Proof.
  induction l as [|x l IH]; simpl; [reflexivity|].
  destruct (Z.eqb_spec x k) as [->|Hne].
  - destruct (Z.eq_dec k k); [reflexivity | contradiction].
  - rewrite IH. destruct (Z.eq_dec x k); [contradiction|].
    now destruct (in_dec Z.eq_dec k l).
Qed.

(** Assigning one fresh key after the other lists the keys in that order. *)
Lemma fold_dict_set_fresh {V : Type} (entry : Z -> V) (l : list Z) :
  NoDup l ->
  forall acc : dict V,
    (forall x, In x l -> ~ In x (dict_keys acc)) ->
    fold_left (fun d s => dict_set d s (entry s)) l acc =
      acc ++ map (fun s => (s, entry s)) l.
Proof.
  induction 1 as [|x l Hx Hnd IH]; intros acc Hfresh; simpl.
  - now rewrite app_nil_r.
  - rewrite dict_set_fresh by (apply dict_get_none_keys, Hfresh; now left).
    rewrite IH.
    + now rewrite <- app_assoc.
    + intros y Hy. unfold dict_keys. rewrite map_app, in_app_iff. simpl.
      intros [Hin|[->|[]]]; [|contradiction].
      apply (Hfresh y); [now right | exact Hin].
Qed.

Lemma range_NoDup (n : Z) : NoDup (range n).
Proof.
  unfold range. apply Finite.Injective_map_NoDup; [|apply seq_NoDup].
  intros a b. apply Nat2Z.inj.
Qed.

Lemma in_dec_range (n s : Z) (A : Type) (a b : A) :
  (if in_dec Z.eq_dec s (range n) then a else b) =
  (if (0 <=? s) && (s <? n) then a else b).
Proof.
  destruct (in_dec Z.eq_dec s (range n)) as [Hin|Hout];
    rewrite In_range in *;
    destruct (Z.leb_spec 0 s), (Z.ltb_spec s n); simpl; try reflexivity; lia.
Qed.

(** ** Per-shard database configuration *)

Lemma manager_database_config_closed (sm : AnyShardManager) (base : string) :
  manager_get_database_config sm base =
    map (fun s =>
           (s, {| DbConfig.database_name := (base ++ "_shard_" ++ str s)%string;
                  DbConfig.shard_id := s;
                  DbConfig.host := ("db-shard-" ++ str s ++ ".example.com")%string;
                  DbConfig.port := 5432 + s |}))
        (range (total_shards (manager_config sm))).
Proof.
  destruct sm as [m|m]; simpl;
    unfold ShardManager.get_database_config,
           ConsistentHashShardManager.get_database_config;
    (rewrite (fold_dict_set_fresh
                (fun s => {| DbConfig.database_name := (base ++ "_shard_" ++ str s)%string;
                             DbConfig.shard_id := s;
                             DbConfig.host := ("db-shard-" ++ str s ++ ".example.com")%string;
                             DbConfig.port := 5432 + s |}));
     [reflexivity | apply range_NoDup | intros x _ []]).
Qed.

(** X1.  [get_database_config(base)], on a manager of either class, has one
    entry per shard id of [range(total_shards)], listed in that order and
    nothing else: the entry under [s] names the database [<base>_shard_<s>],
    the host [db-shard-<s>.example.com] and the port [5432 + s]; any other
    subscript is a missing key.  With [total_shards <= 0] the dictionary is
    empty. *)
Theorem database_config_entries (sm : AnyShardManager) (base : string) (s : Z) :
  dict_keys (manager_get_database_config sm base) =
    range (total_shards (manager_config sm)) /\
  dict_get (manager_get_database_config sm base) s =
    (if (0 <=? s) && (s <? total_shards (manager_config sm))
     then Some {| DbConfig.database_name := (base ++ "_shard_" ++ str s)%string;
                  DbConfig.shard_id := s;
                  DbConfig.host := ("db-shard-" ++ str s ++ ".example.com")%string;
                  DbConfig.port := 5432 + s |}
     else None) /\
  (total_shards (manager_config sm) <= 0 -> manager_get_database_config sm base = []).
Proof.
  rewrite manager_database_config_closed. split; [|split].
  - unfold dict_keys. rewrite map_map. simpl. apply map_id.
  - rewrite dict_get_map_fresh. apply in_dec_range.
  - intros Hts. now rewrite range_nonpos.
Qed.

(** X2.  No two shards share connection data: in the dictionary built by
    [get_database_config], entries under different shard ids differ in
    database name, in host and in port. *)
Theorem database_config_distinct (sm : AnyShardManager) (base : string)
    (s1 s2 : Z) (c1 c2 : DbConfig.t) :
  dict_get (manager_get_database_config sm base) s1 = Some c1 ->
  dict_get (manager_get_database_config sm base) s2 = Some c2 ->
  s1 <> s2 ->
  DbConfig.database_name c1 <> DbConfig.database_name c2 /\
  DbConfig.host c1 <> DbConfig.host c2 /\
  DbConfig.port c1 <> DbConfig.port c2.
Proof.
  rewrite manager_database_config_closed, !dict_get_map_fresh.
  destruct (in_dec Z.eq_dec s1 _); [|discriminate].
  destruct (in_dec Z.eq_dec s2 _); [|discriminate].
  intros H1 H2 Hne.
  assert (Hinj : forall a b : DbConfig.t, Some a = Some b -> a = b)
    by (intros a b E; congruence).
  apply Hinj in H1, H2. subst c1 c2.
  cbv beta iota delta [DbConfig.port DbConfig.host DbConfig.database_name].
  repeat split.
  - intros H. apply string_app_inv_head, (string_app_inv_head "_shard_") in H.
    now apply str_inj in H.
  - intros H. apply (string_app_inv_head "db-shard-") in H.
    apply string_app_inv_tail, str_inj in H. contradiction.
  - lia.
Qed.

Lemma database_config_distinct_witness :
  exists c1 c2,
    dict_get (manager_get_database_config (Modulo sample_manager) "myapp") 1 = Some c1 /\
    dict_get (manager_get_database_config (Modulo sample_manager) "myapp") 4 = Some c2 /\
    1 <> 4 /\
    DbConfig.database_name c1 <> DbConfig.database_name c2 /\
    DbConfig.host c1 <> DbConfig.host c2 /\
    DbConfig.port c1 <> DbConfig.port c2.
Proof.
  do 2 eexists.
  split; [reflexivity|]. split; [reflexivity|]. split; [lia|].
  apply (database_config_distinct (Modulo sample_manager) "myapp" 1 4);
    [reflexivity | reflexivity | lia].
Defined.

(** ** Routing facts shared by the statements below *)

Lemma router_routes (rt : Runtime) (config : ShardConfig) :
  supported config -> seed_accepted rt (hash_seed config) ->
  total_shards config <> 0 ->
  exists m,
    ShardManager.__init__ rt config = Ok m /\
    ShardManager.config m = config /\
    selected rt config (ShardManager._hash_func m) /\
    forall key,
    exists h,
      ShardManager._hash_func m (canonical key) (hash_seed config) = Ok h /\
      ShardManager.get_shard_id m key = Ok (h mod total_shards config).
Proof.
  intros Hs Hseed Hts.
  destruct (init_supported rt config Hs) as [m [Hinit [Hcfg Hsel]]].
  exists m. repeat split; try assumption. intros key.
  destruct (selected_total rt config _ (canonical key) (hash_seed config) Hsel
              (canonical_text_or_bytes key) Hseed) as [h Hh].
  exists h. split; [assumption|].
  rewrite (get_shard_id_unfold m key h) by (now rewrite Hcfg).
  rewrite Hcfg. now apply py_mod_nonzero.
Qed.

Lemma ring_routes (rt : Runtime) (config : ShardConfig) (vn : Z) :
  supported config -> seed_accepted rt (hash_seed config) ->
  1 <= total_shards config -> 1 <= vn ->
  exists m,
    ConsistentHashShardManager.__init__ rt config vn = Ok m /\
    ConsistentHashShardManager.config m = config /\
    selected rt config (ConsistentHashShardManager._hash_func m) /\
    forall key,
    exists shard_id,
      ConsistentHashShardManager.get_shard_id m key = Ok shard_id /\
      0 <= shard_id < total_shards config.
Proof.
  intros Hs Hseed Hts Hvn.
  destruct (ring_init_supported rt config vn Hs Hseed)
    as [m [g [Hinit [Hcfg [Hvnodes [Hsel [Hg Hring]]]]]]].
  exists m. repeat split; try assumption. intros key.
  destruct (selected_total rt config _ (canonical key) (hash_seed config) Hsel
              (canonical_text_or_bytes key) Hseed) as [h Hh].
  destruct (ring_lookup_returns_entry m key h) as [e [He Hlookup]].
  - now rewrite Hcfg.
  - rewrite Hring. now apply ring_nonempty.
  - exists (snd e). split; [assumption|].
    rewrite Hring in He. now apply ring_shard_in_range in He.
Qed.

(** ** The example router *)

Lemma connection_info_found (sm : AnyShardManager) (user_id : Key) (s : Z) :
  manager_get_shard_id sm user_id = Ok s ->
  0 <= s < total_shards (manager_config sm) ->
  DatabaseRouter.get_database_connection_info (DatabaseRouter.__init__ sm) user_id =
    Return {| DbConfig.database_name := ("myapp" ++ "_shard_" ++ str s)%string;
              DbConfig.shard_id := s;
              DbConfig.host := ("db-shard-" ++ str s ++ ".example.com")%string;
              DbConfig.port := 5432 + s |}.
Proof.
  intros Hroute Hrange.
  unfold DatabaseRouter.get_database_connection_info, DatabaseRouter.__init__.
  cbn [DatabaseRouter.shard_manager DatabaseRouter.db_configs].
  rewrite Hroute, manager_database_config_closed, dict_get_map_fresh, in_dec_range.
  destruct (Z.leb_spec 0 s), (Z.ltb_spec s (total_shards (manager_config sm)));
    try lia. reflexivity.
Qed.

Lemma connection_info_missing (sm : AnyShardManager) (user_id : Key) (s : Z) :
  manager_get_shard_id sm user_id = Ok s ->
  ~ 0 <= s < total_shards (manager_config sm) ->
  DatabaseRouter.get_database_connection_info (DatabaseRouter.__init__ sm) user_id =
    KeyError s.
Proof.
  intros Hroute Hrange.
  unfold DatabaseRouter.get_database_connection_info, DatabaseRouter.__init__.
  cbn [DatabaseRouter.shard_manager DatabaseRouter.db_configs].
  rewrite Hroute, manager_database_config_closed, dict_get_map_fresh, in_dec_range.
  destruct (Z.leb_spec 0 s), (Z.ltb_spec s (total_shards (manager_config sm)));
    try lia; reflexivity.
Qed.

(** X3.  A [DatabaseRouter] over a manager of either class, built from a
    config with a supported tag, a seed the hash backend accepts,
    [total_shards >= 1] (and [virtual_nodes >= 1] for the ring), never
    raises: for every user id
    [get_database_connection_info] returns the configuration stored under
    the shard id [s] the manager routes that user to, with [s] in
    [[0, total_shards)], and [route_query] returns the sentence naming that
    database, host and port. *)
Theorem database_router_routes (rt : Runtime) (config : ShardConfig) (vn : Z)
    (user_id : Key) (query : string) :
  supported config -> seed_accepted rt (hash_seed config) ->
  1 <= total_shards config -> 1 <= vn ->
  exists m r,
    ShardManager.__init__ rt config = Ok m /\
    ConsistentHashShardManager.__init__ rt config vn = Ok r /\
    forall sm, sm = Modulo m \/ sm = Consistent r ->
    exists s,
      manager_get_shard_id sm user_id = Ok s /\
      0 <= s < total_shards config /\
      DatabaseRouter.get_database_connection_info (DatabaseRouter.__init__ sm) user_id =
        Return {| DbConfig.database_name := ("myapp_shard_" ++ str s)%string;
                  DbConfig.shard_id := s;
                  DbConfig.host := ("db-shard-" ++ str s ++ ".example.com")%string;
                  DbConfig.port := 5432 + s |} /\
      DatabaseRouter.route_query (DatabaseRouter.__init__ sm) user_id query =
        Return ("Execute '" ++ query ++ "' on myapp_shard_" ++ str s
                ++ " at db-shard-" ++ str s ++ ".example.com:" ++ str (5432 + s))%string.
Proof.
  intros Hs Hseed Hts Hvn.
  destruct (router_routes rt config Hs Hseed ltac:(lia)) as [m [Hm [Hmcfg [_ Hmroute]]]].
  destruct (ring_routes rt config vn Hs Hseed Hts Hvn) as [r [Hr [Hrcfg [_ Hrroute]]]].
  exists m, r. split; [assumption|]. split; [assumption|].
  assert (Hboth : forall sm, sm = Modulo m \/ sm = Consistent r ->
            total_shards (manager_config sm) = total_shards config /\
            exists s, manager_get_shard_id sm user_id = Ok s /\
                      0 <= s < total_shards config).
  { intros sm [-> | ->]; simpl.
    - split; [now rewrite Hmcfg|].
      destruct (Hmroute user_id) as [h [_ Hroute]].
      exists (h mod total_shards config). split; [assumption|].
      apply Z.mod_pos_bound. lia.
    - split; [now rewrite Hrcfg|]. apply Hrroute. }
  intros sm Hsm. destruct (Hboth sm Hsm) as [Hcfg [s [Hroute Hrange]]].
  exists s. split; [assumption|]. split; [assumption|].
  assert (Hinfo := connection_info_found sm user_id s Hroute ltac:(now rewrite Hcfg)).
  split; [exact Hinfo|].
  unfold DatabaseRouter.route_query. rewrite Hinfo.
  cbv beta iota delta [DbConfig.port DbConfig.host DbConfig.database_name].
  rewrite !string_app_assoc. reflexivity.
Qed.

Lemma database_router_routes_witness :
  supported sample_config /\
  seed_accepted (sample_runtime true) (hash_seed sample_config) /\
  1 <= total_shards sample_config /\ 1 <= 3 /\
  exists m r,
    ShardManager.__init__ (sample_runtime true) sample_config = Ok m /\
    ConsistentHashShardManager.__init__ (sample_runtime true) sample_config 3 = Ok r /\
    forall sm, sm = Modulo m \/ sm = Consistent r ->
    exists s,
      manager_get_shard_id sm (KStr "alice_123") = Ok s /\
      0 <= s < total_shards sample_config /\
      DatabaseRouter.get_database_connection_info (DatabaseRouter.__init__ sm)
        (KStr "alice_123") =
        Return {| DbConfig.database_name := ("myapp_shard_" ++ str s)%string;
                  DbConfig.shard_id := s;
                  DbConfig.host := ("db-shard-" ++ str s ++ ".example.com")%string;
                  DbConfig.port := 5432 + s |} /\
      DatabaseRouter.route_query (DatabaseRouter.__init__ sm) (KStr "alice_123")
        "SELECT 1" =
        Return ("Execute '" ++ "SELECT 1" ++ "' on myapp_shard_" ++ str s
                ++ " at db-shard-" ++ str s ++ ".example.com:" ++ str (5432 + s))%string.
Proof.
  split; [left; reflexivity|].
  split; [intros _; simpl; lia|].
  split; [simpl; lia|].
  split; [lia|].
  apply (database_router_routes (sample_runtime true) sample_config 3
           (KStr "alice_123") "SELECT 1");
    [left; reflexivity | intros _; simpl; lia | simpl; lia | lia].
Defined.

(** X4.  A negative [total_shards] passes the constructor and, with a seed
    the hash backend accepts, the routing call: [get_shard_id] returns a
    shard id [s] with
    [total_shards < s <= 0], the dictionary of database configurations is
    empty, and the example router's lookup for any user fails on the
    subscript with [KeyError(s)], as does [route_query]. *)
Theorem database_router_negative_shards (rt : Runtime) (config : ShardConfig) :
  supported config -> seed_accepted rt (hash_seed config) -> total_shards config < 0 ->
  exists m,
    ShardManager.__init__ rt config = Ok m /\
    DatabaseRouter.db_configs (DatabaseRouter.__init__ (Modulo m)) = [] /\
    forall user_id,
    exists s,
      ShardManager.get_shard_id m user_id = Ok s /\
      total_shards config < s <= 0 /\
      DatabaseRouter.get_database_connection_info
        (DatabaseRouter.__init__ (Modulo m)) user_id = KeyError s /\
      forall query,
        DatabaseRouter.route_query (DatabaseRouter.__init__ (Modulo m)) user_id query =
          KeyError s.
Proof.
  intros Hs Hseed Hts.
  destruct (router_routes rt config Hs Hseed ltac:(lia)) as [m [Hm [Hcfg [_ Hroute]]]].
  exists m. split; [assumption|]. split.
  - cbn [DatabaseRouter.__init__ DatabaseRouter.db_configs].
    rewrite manager_database_config_closed. simpl. rewrite Hcfg.
    now rewrite range_nonpos by lia.
  - intros user_id. destruct (Hroute user_id) as [h [_ Hid]].
    exists (h mod total_shards config). split; [assumption|].
    pose proof (Z.mod_neg_bound h (total_shards config) Hts) as Hbound.
    split; [lia|].
    assert (Hinfo := connection_info_missing (Modulo m) user_id _ Hid).
    simpl in Hinfo. rewrite Hcfg in Hinfo. specialize (Hinfo ltac:(lia)).
    split; [exact Hinfo|].
    intros query. unfold DatabaseRouter.route_query. now rewrite Hinfo.
Qed.

Lemma database_router_negative_shards_witness :
  supported negative_shards_config /\
  seed_accepted (sample_runtime true) (hash_seed negative_shards_config) /\
  total_shards negative_shards_config < 0 /\
  exists m,
    ShardManager.__init__ (sample_runtime true) negative_shards_config = Ok m /\
    DatabaseRouter.db_configs (DatabaseRouter.__init__ (Modulo m)) = [] /\
    forall user_id,
    exists s,
      ShardManager.get_shard_id m user_id = Ok s /\
      total_shards negative_shards_config < s <= 0 /\
      DatabaseRouter.get_database_connection_info
        (DatabaseRouter.__init__ (Modulo m)) user_id = KeyError s /\
      forall query,
        DatabaseRouter.route_query (DatabaseRouter.__init__ (Modulo m)) user_id query =
          KeyError s.
Proof.
  split; [right; reflexivity|].
  split; [intros _; simpl; lia|].
  split; [simpl; lia|].
  apply (database_router_negative_shards (sample_runtime true) negative_shards_config);
    [right; reflexivity | intros _; simpl; lia | simpl; lia].
Defined.

(** X5.  When the constructors raise.  With an unsupported algorithm tag
    both raise [ValueError("Unsupported hash algorithm: <tag>")], the ring's
    before any ring is built.  With a supported tag the constructor of
    [ShardManager] never raises; the ring's returns an instance when the
    backend accepts the seed or when there is no virtual node to hash, and
    raises when there is one and the backend refuses the seed. *)
Theorem constructors_raise_cases (rt : Runtime) (config : ShardConfig) (vn : Z) :
  (~ supported config ->
   ShardManager.__init__ rt config =
     Raise (ValueError ("Unsupported hash algorithm: " ++ algorithm config)) /\
   ConsistentHashShardManager.__init__ rt config vn =
     Raise (ValueError ("Unsupported hash algorithm: " ++ algorithm config))) /\
  (supported config ->
   (exists m, ShardManager.__init__ rt config = Ok m) /\
   (seed_accepted rt (hash_seed config) \/ total_shards config < 1 \/ vn < 1 ->
    exists r, ConsistentHashShardManager.__init__ rt config vn = Ok r) /\
   (~ seed_accepted rt (hash_seed config) ->
    1 <= total_shards config -> 1 <= vn ->
    exists e, ConsistentHashShardManager.__init__ rt config vn = Raise e)).
Proof.
  split.
  - intros Hn. pose proof (init_unsupported rt config Hn) as Hinit.
    split; [assumption|].
    unfold ConsistentHashShardManager.__init__. now rewrite Hinit.
  - intros Hs. split; [|split].
    + destruct (init_supported rt config Hs) as [m [Hm _]]. eauto.
    + intros [Hseed|Hempty].
      * destruct (ring_init_supported rt config vn Hs Hseed) as [r [g [Hr _]]]. eauto.
      * destruct (ring_init_empty rt config vn Hs Hempty) as [r [Hr _]]. eauto.
    + intros Hrej Hts Hvn. eexists.
      exact (ring_init_rejected rt config vn Hs Hrej Hts Hvn).
Qed.

Lemma constructors_raise_cases_witness :
  (~ supported unsupported_config /\
   ShardManager.__init__ (sample_runtime true) unsupported_config =
     Raise (ValueError "Unsupported hash algorithm: md5") /\
   ConsistentHashShardManager.__init__ (sample_runtime true) unsupported_config 150 =
     Raise (ValueError "Unsupported hash algorithm: md5")) /\
  (supported sample_config /\
   seed_accepted (sample_runtime true) (hash_seed sample_config) /\
   (exists m, ShardManager.__init__ (sample_runtime true) sample_config = Ok m) /\
   (exists r,
      ConsistentHashShardManager.__init__ (sample_runtime true) sample_config 3 = Ok r)) /\
  (supported rejected_seed_config /\
   ~ seed_accepted (sample_runtime true) (hash_seed rejected_seed_config) /\
   1 <= total_shards rejected_seed_config /\ 1 <= 3 /\
   exists e,
     ConsistentHashShardManager.__init__ (sample_runtime true) rejected_seed_config 3 =
       Raise e).
Proof.
  assert (Hn : ~ supported unsupported_config)
    by (intros [H|H]; discriminate H).
  assert (Hs : supported sample_config) by (left; reflexivity).
  assert (Hseed : seed_accepted (sample_runtime true) (hash_seed sample_config))
    by (intros _; simpl; lia).
  assert (Hs' : supported rejected_seed_config) by (left; reflexivity).
  assert (Hrej : ~ seed_accepted (sample_runtime true) (hash_seed rejected_seed_config))
    by (intros H; specialize (H eq_refl); simpl in H; lia).
  split; [|split].
  - split; [exact Hn|].
    exact (proj1 (constructors_raise_cases (sample_runtime true)
                    unsupported_config 150) Hn).
  - split; [exact Hs|]. split; [exact Hseed|].
    destruct (proj2 (constructors_raise_cases (sample_runtime true) sample_config 3) Hs)
      as [Hrouter [Hring _]].
    split; [exact Hrouter | exact (Hring (or_introl Hseed))].
  - split; [exact Hs'|]. split; [exact Hrej|].
    split; [simpl; lia|]. split; [lia|].
    destruct (proj2 (constructors_raise_cases (sample_runtime true)
                       rejected_seed_config 3) Hs') as [_ [_ Hraise]].
    apply Hraise; [exact Hrej | simpl; lia | lia].
Defined.

(** ** Distribution of keys over shards *)

Section DistributionLoop.
Variable route : Key -> Result Z.

Let body (key : Key) (distribution : dict Z) : Result (dict Z) :=
  shard_id <- route key ;;
  Ok (dict_set distribution shard_id (dict_get_default distribution shard_id 0 + 1)).

Lemma routed_to_cons (s : Z) (key : Key) (keys : list Key) (s0 : Z) :
  route key = Ok s0 ->
  routed_to route s (key :: keys) =
    ((if (s0 =? s)%Z then 1 else 0) + routed_to route s keys)%nat.
Proof.
  intros Hk. unfold routed_to. simpl. rewrite Hk. now destruct (s0 =? s).
Qed.

Lemma distribution_loop_counts (keys : list Key) :
  (forall key, In key keys -> exists s, route key = Ok s) ->
  forall acc,
  exists d,
    for_each keys body acc = Ok d /\
    forall s,
      dict_get d s =
        match dict_get acc s with
        | Some c => Some (c + Z.of_nat (routed_to route s keys))
        | None =>
            if Nat.eqb (routed_to route s keys) 0 then None
            else Some (Z.of_nat (routed_to route s keys))
        end.
Proof.
  induction keys as [|key keys IH]; intros Hok acc.
  - exists acc. split; [reflexivity|]. intros s. simpl.
    destruct (dict_get acc s); [f_equal; lia | reflexivity].
  - destruct (Hok key (or_introl eq_refl)) as [s0 Hs0].
    destruct (IH (fun k Hk => Hok k (or_intror Hk))
                 (dict_set acc s0 (dict_get_default acc s0 0 + 1))) as [d [Hd Hget]].
    exists d. split.
    + simpl. unfold body at 1. rewrite Hs0. exact Hd.
    + intros s. rewrite Hget, (routed_to_cons s key keys s0 Hs0).
      destruct (Z.eqb_spec s0 s) as [->|Hne].
      * rewrite dict_get_set_same. unfold dict_get_default.
        destruct (dict_get acc s); cbn [Nat.add Nat.eqb]; f_equal; lia.
      * rewrite dict_get_set_other by congruence. reflexivity.
Qed.

Lemma sum_values_set (d : dict Z) (s : Z) :
  sum_values (dict_set d s (dict_get_default d s 0 + 1)) = sum_values d + 1.
Proof.
  unfold sum_values, dict_values, dict_get_default.
  induction d as [|[k v] d IH]; simpl; [reflexivity|].
  destruct (Z.eqb_spec k s) as [->|Hne]; simpl; [lia|].
  rewrite IH. lia.
Qed.

Lemma dict_set_keys_NoDup (d : dict Z) (s v : Z) :
  NoDup (dict_keys d) -> NoDup (dict_keys (dict_set d s v)).
Proof.
  intros Hnd. destruct (dict_get d s) eqn:Hget.
  - rewrite dict_set_present_keys by congruence. exact Hnd.
  - rewrite dict_set_fresh by assumption. unfold dict_keys. rewrite map_app. simpl.
    apply NoDup_app; [exact Hnd | repeat constructor; intros [] |].
    intros x Hx [<-|[]]. now apply dict_get_none_keys in Hget.
Qed.

Lemma distribution_loop_total (keys : list Key) :
  forall acc d,
    for_each keys body acc = Ok d ->
    sum_values d = sum_values acc + Z.of_nat (List.length keys) /\
    (NoDup (dict_keys acc) -> NoDup (dict_keys d)).
Proof.
  induction keys as [|key keys IH]; intros acc d; simpl.
  - intros [= <-]. split; [lia | auto].
  - intros H. apply bind_ok in H as [acc' [Hbody Hrest]].
    unfold body in Hbody. apply bind_ok in Hbody as [s0 [_ [= <-]]].
    destruct (IH _ _ Hrest) as [Hsum Hnd]. split.
    + rewrite Hsum, sum_values_set. lia.
    + intros Hacc. apply Hnd. now apply dict_set_keys_NoDup.
Qed.

Lemma distribution_loop_raises (key : Key) (keys : list Key) (e : PyError) :
  route key = Raise e -> forall acc, for_each (key :: keys) body acc = Raise e.
Proof. intros Hk acc. simpl. unfold body. now rewrite Hk. Qed.

End DistributionLoop.

Lemma routed_to_positive (route : Key -> Result Z) (s : Z) (keys : list Key) :
  routed_to route s keys <> 0%nat ->
  exists key, In key keys /\ route key = Ok s.
Proof.
  unfold routed_to. intros Hn.
  destruct (filter _ keys) as [|key rest] eqn:Hf; [contradiction|].
  assert (Hin : In key (key :: rest)) by now left.
  rewrite <- Hf in Hin. apply filter_In in Hin as [Hin Hk].
  exists key. split; [assumption|].
  destruct (route key) as [s'|e]; [|discriminate].
  apply Z.eqb_eq in Hk. now subst.
Qed.

Lemma routed_to_permutation (route : Key -> Result Z) (s : Z) (keys keys' : list Key) :
  Permutation keys keys' -> routed_to route s keys = routed_to route s keys'.
Proof.
  unfold routed_to. induction 1 as [|k l l' _ IH|k k' l|l l' l'' _ IH1 _ IH2]; simpl.
  - reflexivity.
  - destruct (match route k with Ok s' => s' =? s | Raise _ => false end);
      simpl; now rewrite IH.
  - destruct (match route k with Ok s' => s' =? s | Raise _ => false end),
             (match route k' with Ok s' => s' =? s | Raise _ => false end);
      reflexivity.
  - congruence.
Qed.

(** The tally loop of [get_shard_key_distribution], for a routing function
    that succeeds on every key with a shard id satisfying [P]. *)
Lemma distribution_tally (route : Key -> Result Z) (P : Z -> Prop) (keys : list Key) :
  (forall key, exists s, route key = Ok s /\ P s) ->
  exists d,
    for_each keys (fun key distribution =>
      shard_id <- route key ;;
      Ok (dict_set distribution shard_id
            (dict_get_default distribution shard_id 0 + 1))) [] = Ok d /\
    (forall s,
        dict_get d s =
          if Nat.eqb (routed_to route s keys) 0 then None
          else Some (Z.of_nat (routed_to route s keys))) /\
    sum_values d = Z.of_nat (List.length keys) /\
    NoDup (dict_keys d) /\
    (forall s, In s (dict_keys d) -> P s).
Proof.
  intros Hroute.
  destruct (distribution_loop_counts route keys) with (acc := @nil (Z * Z))
    as [d [Hd Hget]].
  { intros key _. destruct (Hroute key) as [s [Hs _]]. eauto. }
  exists d. split; [exact Hd|].
  destruct (distribution_loop_total route keys [] d Hd) as [Hsum Hnd].
  split; [exact Hget|]. split; [exact Hsum|]. split; [apply Hnd; constructor|].
  intros s Hin.
  destruct (dict_get d s) as [c|] eqn:Hc.
  - rewrite Hget in Hc.
    destruct (Nat.eqb_spec (routed_to route s keys) 0) as [|Hpos]; [discriminate|].
    destruct (routed_to_positive route s keys Hpos) as [key [_ Hk]].
    destruct (Hroute key) as [s' [Hs' HP]]. congruence.
  - apply dict_get_none_keys in Hc. contradiction.
Qed.

(** X6.  On a [ShardManager] with a supported tag, a seed the hash backend
    accepts and [total_shards >= 1],
    [get_shard_key_distribution(keys)] succeeds for every list of keys and
    returns a dictionary that holds, under each shard id, the number of keys
    routed to it by [get_shard_id], and no entry for a shard that received
    none; its keys are distinct shard ids in [[0, total_shards)] and its
    values add up to [len(keys)]. *)
Theorem distribution_counts (rt : Runtime) (config : ShardConfig) (keys : list Key) :
  supported config -> seed_accepted rt (hash_seed config) -> 1 <= total_shards config ->
  exists m d,
    ShardManager.__init__ rt config = Ok m /\
    ShardManager.get_shard_key_distribution m keys = Ok d /\
    (forall s,
        dict_get d s =
          if Nat.eqb (routed_to (ShardManager.get_shard_id m) s keys) 0 then None
          else Some (Z.of_nat (routed_to (ShardManager.get_shard_id m) s keys))) /\
    sum_values d = Z.of_nat (List.length keys) /\
    NoDup (dict_keys d) /\
    (forall s, In s (dict_keys d) -> 0 <= s < total_shards config).
Proof.
  intros Hs Hseed Hts.
  destruct (router_routes rt config Hs Hseed ltac:(lia)) as [m [Hm [Hcfg [_ Hroute]]]].
  destruct (distribution_tally (ShardManager.get_shard_id m)
              (fun s => 0 <= s < total_shards config) keys) as [d Hd].
  { intros key. destruct (Hroute key) as [h [_ Hid]].
    exists (h mod total_shards config). split; [assumption|].
    apply Z.mod_pos_bound. lia. }
  exists m, d. split; [assumption|]. exact Hd.
Qed.

Lemma distribution_counts_witness :
  supported sample_config /\
  seed_accepted (sample_runtime true) (hash_seed sample_config) /\
  1 <= total_shards sample_config /\
  exists m d,
    ShardManager.__init__ (sample_runtime true) sample_config = Ok m /\
    ShardManager.get_shard_key_distribution m
      [KStr "user_1"; KInt 5; KStr "user_1"; KBytes []] = Ok d /\
    (forall s,
        dict_get d s =
          if Nat.eqb (routed_to (ShardManager.get_shard_id m) s
                        [KStr "user_1"; KInt 5; KStr "user_1"; KBytes []]) 0
          then None
          else Some (Z.of_nat (routed_to (ShardManager.get_shard_id m) s
                                 [KStr "user_1"; KInt 5; KStr "user_1"; KBytes []]))) /\
    sum_values d =
      Z.of_nat (List.length [KStr "user_1"; KInt 5; KStr "user_1"; KBytes []]) /\
    NoDup (dict_keys d) /\
    (forall s, In s (dict_keys d) -> 0 <= s < total_shards sample_config).
Proof.
  split; [left; reflexivity|].
  split; [intros _; simpl; lia|].
  split; [simpl; lia|].
  apply (distribution_counts (sample_runtime true) sample_config
           [KStr "user_1"; KInt 5; KStr "user_1"; KBytes []]);
    [left; reflexivity | intros _; simpl; lia | simpl; lia].
Defined.

(** X7.  The same on the ring: on a [ConsistentHashShardManager] with a
    supported tag, a seed the hash backend accepts, [total_shards >= 1] and
    [virtual_nodes >= 1], the
    inherited [get_shard_key_distribution] tallies the keys by the ring
    lookup, not by the modulo rule; it succeeds on every list of keys, counts
    add up to [len(keys)] and every shard id listed is in
    [[0, total_shards)]. *)
Theorem ring_distribution_counts (rt : Runtime) (config : ShardConfig) (vn : Z)
    (keys : list Key) :
  supported config -> seed_accepted rt (hash_seed config) ->
  1 <= total_shards config -> 1 <= vn ->
  exists r d,
    ConsistentHashShardManager.__init__ rt config vn = Ok r /\
    ConsistentHashShardManager.get_shard_key_distribution r keys = Ok d /\
    (forall s,
        dict_get d s =
          if Nat.eqb (routed_to (ConsistentHashShardManager.get_shard_id r) s keys) 0
          then None
          else Some (Z.of_nat
                       (routed_to (ConsistentHashShardManager.get_shard_id r) s keys))) /\
    sum_values d = Z.of_nat (List.length keys) /\
    NoDup (dict_keys d) /\
    (forall s, In s (dict_keys d) -> 0 <= s < total_shards config).
Proof.
  intros Hs Hseed Hts Hvn.
  destruct (ring_routes rt config vn Hs Hseed Hts Hvn) as [r [Hr [Hcfg [_ Hroute]]]].
  destruct (distribution_tally (ConsistentHashShardManager.get_shard_id r)
              (fun s => 0 <= s < total_shards config) keys Hroute) as [d Hd].
  exists r, d. split; [assumption|]. exact Hd.
Qed.

Lemma ring_distribution_counts_witness :
  supported sample_config /\
  seed_accepted (sample_runtime true) (hash_seed sample_config) /\
  1 <= total_shards sample_config /\ 1 <= 3 /\
  exists r d,
    ConsistentHashShardManager.__init__ (sample_runtime true) sample_config 3 = Ok r /\
    ConsistentHashShardManager.get_shard_key_distribution r
      [KStr "user_1"; KInt 5] = Ok d /\
    (forall s,
        dict_get d s =
          if Nat.eqb (routed_to (ConsistentHashShardManager.get_shard_id r) s
                        [KStr "user_1"; KInt 5]) 0
          then None
          else Some (Z.of_nat
                       (routed_to (ConsistentHashShardManager.get_shard_id r) s
                          [KStr "user_1"; KInt 5]))) /\
    sum_values d = Z.of_nat (List.length [KStr "user_1"; KInt 5]) /\
    NoDup (dict_keys d) /\
    (forall s, In s (dict_keys d) -> 0 <= s < total_shards sample_config).
Proof.
  split; [left; reflexivity|].
  split; [intros _; simpl; lia|].
  split; [simpl; lia|].
  split; [lia|].
  apply (ring_distribution_counts (sample_runtime true) sample_config 3
           [KStr "user_1"; KInt 5]);
    [left; reflexivity | intros _; simpl; lia | simpl; lia | lia].
Defined.

(** X8.  The tally does not depend on the order of the keys: for two lists
    that are rearrangements of each other, the distributions computed by a
    router and by a ring (supported tag, seed accepted by the hash backend,
    [total_shards >= 1], [virtual_nodes >= 1]) answer every subscript alike,
    whatever the order in which the shard ids were inserted. *)
Theorem distribution_order_independent (rt : Runtime) (config : ShardConfig)
    (vn : Z) (keys keys' : list Key) :
  supported config -> seed_accepted rt (hash_seed config) ->
  1 <= total_shards config -> 1 <= vn ->
  Permutation keys keys' ->
  exists m r d d' rd rd',
    ShardManager.__init__ rt config = Ok m /\
    ConsistentHashShardManager.__init__ rt config vn = Ok r /\
    ShardManager.get_shard_key_distribution m keys = Ok d /\
    ShardManager.get_shard_key_distribution m keys' = Ok d' /\
    ConsistentHashShardManager.get_shard_key_distribution r keys = Ok rd /\
    ConsistentHashShardManager.get_shard_key_distribution r keys' = Ok rd' /\
    forall s, dict_get d s = dict_get d' s /\ dict_get rd s = dict_get rd' s.
Proof.
  intros Hs Hseed Hts Hvn Hperm.
  destruct (router_routes rt config Hs Hseed ltac:(lia)) as [m [Hm [Hcfg [_ Hroute]]]].
  destruct (ring_routes rt config vn Hs Hseed Hts Hvn) as [r [Hr [Hrcfg [_ Hrroute]]]].
  assert (Hmroute : forall key, exists s, ShardManager.get_shard_id m key = Ok s /\ True).
  { intros key. destruct (Hroute key) as [h [_ Hid]]. eauto. }
  assert (Hrroute' : forall key,
             exists s, ConsistentHashShardManager.get_shard_id r key = Ok s /\ True).
  { intros key. destruct (Hrroute key) as [s [Hid _]]. eauto. }
  destruct (distribution_tally _ (fun _ => True) keys Hmroute) as [d [Hd [Hget _]]].
  destruct (distribution_tally _ (fun _ => True) keys' Hmroute) as [d' [Hd' [Hget' _]]].
  destruct (distribution_tally _ (fun _ => True) keys Hrroute') as [rd [Hrd [Hrget _]]].
  destruct (distribution_tally _ (fun _ => True) keys' Hrroute')
    as [rd' [Hrd' [Hrget' _]]].
  exists m, r, d, d', rd, rd'. repeat (split; [assumption|]).
  intros s. rewrite Hget, Hget', Hrget, Hrget'.
  now rewrite !(routed_to_permutation _ s keys keys' Hperm).
Qed.

Lemma distribution_order_independent_witness :
  supported sample_config /\
  seed_accepted (sample_runtime true) (hash_seed sample_config) /\
  1 <= total_shards sample_config /\ 1 <= 3 /\
  Permutation [KStr "a"; KInt 7; KStr "b"] [KInt 7; KStr "b"; KStr "a"] /\
  exists m r d d' rd rd',
    ShardManager.__init__ (sample_runtime true) sample_config = Ok m /\
    ConsistentHashShardManager.__init__ (sample_runtime true) sample_config 3 = Ok r /\
    ShardManager.get_shard_key_distribution m [KStr "a"; KInt 7; KStr "b"] = Ok d /\
    ShardManager.get_shard_key_distribution m [KInt 7; KStr "b"; KStr "a"] = Ok d' /\
    ConsistentHashShardManager.get_shard_key_distribution r
      [KStr "a"; KInt 7; KStr "b"] = Ok rd /\
    ConsistentHashShardManager.get_shard_key_distribution r
      [KInt 7; KStr "b"; KStr "a"] = Ok rd' /\
    forall s, dict_get d s = dict_get d' s /\ dict_get rd s = dict_get rd' s.
Proof.
  assert (Hperm : Permutation [KStr "a"; KInt 7; KStr "b"] [KInt 7; KStr "b"; KStr "a"]).
  { apply (Permutation_cons_app [KInt 7; KStr "b"] [] (KStr "a")).
    simpl. apply Permutation_refl. }
  split; [left; reflexivity|].
  split; [intros _; simpl; lia|].
  split; [simpl; lia|].
  split; [lia|].
  split; [exact Hperm|].
  apply (distribution_order_independent (sample_runtime true) sample_config 3
           [KStr "a"; KInt 7; KStr "b"] [KInt 7; KStr "b"; KStr "a"]);
    [left; reflexivity | intros _; simpl; lia | simpl; lia | lia | exact Hperm].
Defined.

(** X9.  On degenerate instances, with a seed the hash backend accepts,
    the tally fails as soon as there is a key to route, and only then: with
    [total_shards = 0] a router's
    [get_shard_key_distribution] returns the empty dictionary for an empty
    list and raises [ZeroDivisionError] for any other list; on a ring that is
    empty ([total_shards < 1] or [virtual_nodes < 1]) it is the same with
    [IndexError]. *)
Theorem distribution_on_degenerate_instances (rt : Runtime) (config : ShardConfig)
    (vn : Z) :
  supported config -> seed_accepted rt (hash_seed config) ->
  (total_shards config = 0 ->
   exists m,
     ShardManager.__init__ rt config = Ok m /\
     ShardManager.get_shard_key_distribution m [] = Ok [] /\
     forall key keys,
       ShardManager.get_shard_key_distribution m (key :: keys) =
         Raise ZeroDivisionError) /\
  (total_shards config < 1 \/ vn < 1 ->
   exists r,
     ConsistentHashShardManager.__init__ rt config vn = Ok r /\
     ConsistentHashShardManager.get_shard_key_distribution r [] = Ok [] /\
     forall key keys,
       ConsistentHashShardManager.get_shard_key_distribution r (key :: keys) =
         Raise IndexError).
Proof.
  intros Hs Hseed. split.
  - intros Hz.
    destruct (init_supported rt config Hs) as [m [Hinit [Hcfg Hsel]]].
    exists m. split; [assumption|]. split; [reflexivity|].
    intros key keys. apply distribution_loop_raises.
    destruct (selected_total rt config _ (canonical key) (hash_seed config) Hsel
                (canonical_text_or_bytes key) Hseed) as [h Hh].
    rewrite (get_shard_id_unfold m key h) by (now rewrite Hcfg).
    now rewrite Hcfg, Hz.
  - intros Hempty.
    destruct (ring_init_supported rt config vn Hs Hseed)
      as [r [g [Hinit [Hcfg [Hvnodes [Hsel [Hg Hring]]]]]]].
    assert (Hnil : ConsistentHashShardManager._ring r = []).
    { rewrite Hring. destruct Hempty as [Hts|Hvn].
      - now rewrite (range_nonpos (total_shards config)) by lia.
      - now rewrite (range_nonpos vn), list_prod_nil_r by lia. }
    exists r. split; [assumption|]. split; [reflexivity|].
    intros key keys. apply distribution_loop_raises.
    destruct (selected_total rt config _ (canonical key) (hash_seed config) Hsel
                (canonical_text_or_bytes key) Hseed) as [h Hh].
    rewrite (ring_get_shard_id_unfold r key h) by (now rewrite Hcfg).
    now rewrite Hnil.
Qed.

Lemma distribution_on_degenerate_instances_witness :
  supported zero_shards_config /\
  seed_accepted (sample_runtime true) (hash_seed zero_shards_config) /\
  (total_shards zero_shards_config = 0 ->
   exists m,
     ShardManager.__init__ (sample_runtime true) zero_shards_config = Ok m /\
     ShardManager.get_shard_key_distribution m [] = Ok [] /\
     forall key keys,
       ShardManager.get_shard_key_distribution m (key :: keys) =
         Raise ZeroDivisionError) /\
  (total_shards zero_shards_config < 1 \/ 150 < 1 ->
   exists r,
     ConsistentHashShardManager.__init__ (sample_runtime true) zero_shards_config 150 =
       Ok r /\
     ConsistentHashShardManager.get_shard_key_distribution r [] = Ok [] /\
     forall key keys,
       ConsistentHashShardManager.get_shard_key_distribution r (key :: keys) =
         Raise IndexError).
Proof.
  split; [left; reflexivity|].
  split; [intros _; simpl; lia|].
  apply (distribution_on_degenerate_instances (sample_runtime true)
           zero_shards_config 150).
  - left; reflexivity.
  - intros _; simpl; lia.
Defined.

(** ** Resharding analysis, continued *)

Lemma canonical_text (key : Key) : text_or_bytes key -> canonical key = key.
Proof. destruct key; [reflexivity | contradiction | reflexivity]. Qed.

(** X10.  Comparing a router with itself: for a text or bytes key and a
    seed the hash backend accepts,
    [migrate_key(key, total_shards)] on a router with that same
    [total_shards] (non zero) returns [(s, s, False)], [s] being the shard
    [get_shard_id] gives the key.  No key migrates when the shard count does
    not change. *)
Theorem migrate_key_same_shard_count (rt : Runtime) (config : ShardConfig) (key : Key) :
  supported config -> seed_accepted rt (hash_seed config) ->
  total_shards config <> 0 -> text_or_bytes key ->
  exists m s,
    ShardManager.__init__ rt config = Ok m /\
    ShardManager.get_shard_id m key = Ok s /\
    ShardManager.migrate_key m key (total_shards config) = Ok (s, s, false).
Proof.
  intros Hs Hseed Hts Hk.
  destruct (router_routes rt config Hs Hseed Hts) as [m [Hm [Hcfg [_ Hroute]]]].
  destruct (Hroute key) as [h [Hh Hid]].
  exists m, (h mod total_shards config).
  split; [assumption|]. split; [assumption|].
  rewrite (canonical_text key Hk) in Hh.
  rewrite (migrate_key_unfold m key (total_shards config) h); rewrite ?Hcfg;
    try assumption.
  now rewrite Z.eqb_refl.
Qed.

Lemma migrate_key_same_shard_count_witness :
  supported sample_config /\
  seed_accepted (sample_runtime true) (hash_seed sample_config) /\
  total_shards sample_config <> 0 /\
  text_or_bytes (KStr "user_001") /\
  exists m s,
    ShardManager.__init__ (sample_runtime true) sample_config = Ok m /\
    ShardManager.get_shard_id m (KStr "user_001") = Ok s /\
    ShardManager.migrate_key m (KStr "user_001") (total_shards sample_config) =
      Ok (s, s, false).
Proof.
  split; [left; reflexivity|].
  split; [intros _; simpl; lia|].
  split; [simpl; lia|].
  split; [exact I|].
  apply (migrate_key_same_shard_count (sample_runtime true) sample_config
           (KStr "user_001"));
    [left; reflexivity | intros _; simpl; lia | simpl; lia | exact I].
Defined.

(** X11.  For a text or bytes key and a seed the hash backend accepts,
    [migrate_key] on a router fails exactly
    when one of the two shard counts is zero, and then with
    [ZeroDivisionError]: a zero [old_total_shards] fails at the first modulo,
    a zero [total_shards] inside [get_shard_id]; with both non zero it
    returns a triple whose components lie between zero and the respective
    shard count. *)
Theorem migrate_key_zero_division (rt : Runtime) (config : ShardConfig)
    (key : Key) (old : Z) :
  supported config -> seed_accepted rt (hash_seed config) -> text_or_bytes key ->
  exists m,
    ShardManager.__init__ rt config = Ok m /\
    (old = 0 \/ total_shards config = 0 ->
     ShardManager.migrate_key m key old = Raise ZeroDivisionError) /\
    (old <> 0 -> total_shards config <> 0 ->
     exists old_shard_id new_shard_id,
       ShardManager.migrate_key m key old =
         Ok (old_shard_id, new_shard_id, negb (old_shard_id =? new_shard_id)) /\
       (0 < old -> 0 <= old_shard_id < old) /\
       (0 < total_shards config -> 0 <= new_shard_id < total_shards config)).
Proof.
  intros Hs Hseed Hk.
  destruct (init_supported rt config Hs) as [m [Hinit [Hcfg Hsel]]].
  destruct (selected_total rt config _ key (hash_seed config) Hsel Hk Hseed) as [h Hh].
  exists m. split; [assumption|]. split.
  - intros Hzero. unfold ShardManager.migrate_key. rewrite Hcfg, Hh. simpl.
    destruct (Z.eq_dec old 0) as [->|Hold]; [reflexivity|].
    destruct Hzero as [?|Hz]; [contradiction|].
    rewrite (py_mod_nonzero h old Hold). simpl.
    rewrite (get_shard_id_unfold m key h)
      by (now rewrite (canonical_text key Hk), Hcfg).
    now rewrite Hcfg, Hz.
  - intros Hold Hts.
    exists (h mod old), (h mod total_shards config). split.
    + rewrite (migrate_key_unfold m key old h); rewrite ?Hcfg; try assumption.
      reflexivity.
    + split; intros Hpos; now apply Z.mod_pos_bound.
Qed.

Lemma migrate_key_zero_division_witness :
  supported sample_config /\
  seed_accepted (sample_runtime false) (hash_seed sample_config) /\
  text_or_bytes (KBytes []) /\
  (exists m,
     ShardManager.__init__ (sample_runtime false) sample_config = Ok m /\
     ShardManager.migrate_key m (KBytes []) 0 = Raise ZeroDivisionError) /\
  (exists m old_shard_id new_shard_id,
     ShardManager.__init__ (sample_runtime false) sample_config = Ok m /\
     ShardManager.migrate_key m (KBytes []) 3 =
       Ok (old_shard_id, new_shard_id, negb (old_shard_id =? new_shard_id)) /\
     0 <= old_shard_id < 3 /\
     0 <= new_shard_id < total_shards sample_config).
Proof.
  assert (Hs : supported sample_config) by (left; reflexivity).
  assert (Hseed : seed_accepted (sample_runtime false) (hash_seed sample_config))
    by (intros _; simpl; lia).
  split; [exact Hs|]. split; [exact Hseed|]. split; [exact I|]. split.
  - destruct (migrate_key_zero_division (sample_runtime false) sample_config
                (KBytes []) 0 Hs Hseed I) as [m [Hm [Hzero _]]].
    exists m. split; [exact Hm|]. apply Hzero. left; reflexivity.
  - destruct (migrate_key_zero_division (sample_runtime false) sample_config
                (KBytes []) 3 Hs Hseed I) as [m [Hm [_ Hok]]].
    destruct (Hok ltac:(lia) ltac:(simpl; lia))
      as [old_shard_id [new_shard_id [Hmig [Hold Hnew]]]].
    exists m, old_shard_id, new_shard_id.
    split; [exact Hm|]. split; [exact Hmig|].
    split; [apply Hold; lia | apply Hnew; simpl; lia].
Defined.

(** X12.  On a ring, the inherited [migrate_key] mixes the two routing
    rules: the old shard id is [hash mod old_total_shards], the new one is
    the ring lookup of the key, and the flag tells whether the two numbers
    differ.  On a ring built with a seed the hash backend accepts, for a
    text or bytes key and a non-zero [old_total_shards] it returns that
    triple; for an integer key it raises [TypeError], as on the parent
    class. *)
Theorem ring_migrate_key (rt : Runtime) (config : ShardConfig) (vn : Z)
    (key : Key) (old : Z) :
  supported config -> seed_accepted rt (hash_seed config) ->
  1 <= total_shards config -> 1 <= vn -> old <> 0 ->
  text_or_bytes key ->
  exists r h s,
    ConsistentHashShardManager.__init__ rt config vn = Ok r /\
    ConsistentHashShardManager._hash_func r key (hash_seed config) = Ok h /\
    ConsistentHashShardManager.get_shard_id r key = Ok s /\
    ConsistentHashShardManager.migrate_key r key old =
      Ok (h mod old, s, negb (h mod old =? s)) /\
    forall n, ConsistentHashShardManager.migrate_key r (KInt n) old = Raise TypeError.
Proof.
  intros Hs Hseed Hts Hvn Hold Hk.
  destruct (ring_routes rt config vn Hs Hseed Hts Hvn) as [r [Hr [Hcfg [Hsel Hroute]]]].
  destruct (selected_total rt config _ key (hash_seed config) Hsel Hk Hseed) as [h Hh].
  destruct (Hroute key) as [s [Hid _]].
  exists r, h, s. split; [assumption|]. split; [assumption|]. split; [assumption|].
  split.
  - unfold ConsistentHashShardManager.migrate_key.
    rewrite Hcfg, Hh. simpl. rewrite (py_mod_nonzero h old Hold). simpl.
    now rewrite Hid.
  - intros n. unfold ConsistentHashShardManager.migrate_key.
    now rewrite Hcfg, (selected_int rt config _ n _ Hsel).
Qed.

Lemma ring_migrate_key_witness :
  supported sample_config /\
  seed_accepted (sample_runtime true) (hash_seed sample_config) /\
  1 <= total_shards sample_config /\ 1 <= 3 /\ 3 <> 0 /\
  text_or_bytes (KStr "user_001") /\
  exists r h s,
    ConsistentHashShardManager.__init__ (sample_runtime true) sample_config 3 = Ok r /\
    ConsistentHashShardManager._hash_func r (KStr "user_001")
      (hash_seed sample_config) = Ok h /\
    ConsistentHashShardManager.get_shard_id r (KStr "user_001") = Ok s /\
    ConsistentHashShardManager.migrate_key r (KStr "user_001") 3 =
      Ok (h mod 3, s, negb (h mod 3 =? s)) /\
    forall n, ConsistentHashShardManager.migrate_key r (KInt n) 3 = Raise TypeError.
Proof.
  split; [left; reflexivity|].
  split; [intros _; simpl; lia|].
  split; [simpl; lia|].
  split; [lia|].
  split; [lia|].
  split; [exact I|].
  apply (ring_migrate_key (sample_runtime true) sample_config 3 (KStr "user_001") 3);
    [left; reflexivity | intros _; simpl; lia | simpl; lia | lia | lia | exact I].
Defined.

(** ** The hash adapter, continued *)

Lemma selected_text_as_bytes (rt : Runtime) (config : ShardConfig)
    (f : Key -> Z -> Result Z) (s : string) (seed : Z) :
  selected rt config f -> f (KStr s) seed = f (KBytes (encode s)) seed.
Proof.
  intros [[_ ->]|[_ ->]];
    unfold MurmurHash.murmur3_32, MurmurHash.murmur3_128;
    now destruct (HAS_MMH3 rt).
Qed.

Lemma ring_init_selected (rt : Runtime) (config : ShardConfig) (vn : Z)
    (r : ConsistentHashShardManager.t) :
  ConsistentHashShardManager.__init__ rt config vn = Ok r ->
  ConsistentHashShardManager.config r = config /\
  selected rt config (ConsistentHashShardManager._hash_func r).
Proof.
  unfold ConsistentHashShardManager.__init__. intros H.
  apply bind_ok in H as [super [Hsuper H]].
  apply bind_ok in H as [ring [_ [= <-]]].
  apply init_ok in Hsuper as [_ [Hcfg Hsel]]. simpl. auto.
Qed.

(** X13.  Text is hashed through its UTF-8 bytes on both backends, so a text
    key and the bytes key holding its encoding are treated alike, in result
    and in exception, by every instance the constructors return: by
    [get_shard_id] of a router, by [get_shard_id] of a ring and by
    [migrate_key]. *)
Theorem text_key_routes_as_its_bytes (rt : Runtime) (config : ShardConfig)
    (vn : Z) (m : ShardManager.t) (r : ConsistentHashShardManager.t) (s : string) :
  ShardManager.__init__ rt config = Ok m ->
  ConsistentHashShardManager.__init__ rt config vn = Ok r ->
  ShardManager.get_shard_id m (KStr s) =
    ShardManager.get_shard_id m (KBytes (encode s)) /\
  ConsistentHashShardManager.get_shard_id r (KStr s) =
    ConsistentHashShardManager.get_shard_id r (KBytes (encode s)) /\
  forall old,
    ShardManager.migrate_key m (KStr s) old =
      ShardManager.migrate_key m (KBytes (encode s)) old.
Proof.
  intros Hm Hr.
  apply init_ok in Hm as [_ [Hcfg Hsel]].
  apply ring_init_selected in Hr as [Hrcfg Hrsel].
  assert (Hid : ShardManager.get_shard_id m (KStr s) =
                ShardManager.get_shard_id m (KBytes (encode s))).
  { unfold ShardManager.get_shard_id.
    now rewrite (selected_text_as_bytes rt config _ s _ Hsel). }
  split; [exact Hid|]. split.
  - unfold ConsistentHashShardManager.get_shard_id.
    now rewrite (selected_text_as_bytes rt config _ s _ Hrsel).
  - intros old. unfold ShardManager.migrate_key.
    now rewrite (selected_text_as_bytes rt config _ s _ Hsel), Hid.
Qed.

Lemma text_key_routes_as_its_bytes_witness :
  exists m r,
    ShardManager.__init__ (sample_runtime false) sample_config = Ok m /\
    ConsistentHashShardManager.__init__ (sample_runtime false) sample_config 3 = Ok r /\
    ShardManager.get_shard_id m (KStr "user_001") =
      ShardManager.get_shard_id m (KBytes (encode "user_001")) /\
    ConsistentHashShardManager.get_shard_id r (KStr "user_001") =
      ConsistentHashShardManager.get_shard_id r (KBytes (encode "user_001")) /\
    forall old,
      ShardManager.migrate_key m (KStr "user_001") old =
        ShardManager.migrate_key m (KBytes (encode "user_001")) old.
Proof.
  do 2 eexists.
  split; [reflexivity|]. split; [reflexivity|].
  apply (text_key_routes_as_its_bytes (sample_runtime false) sample_config 3 _ _
           "user_001"); reflexivity.
Defined.

(** X14.  Without [mmh3] the two algorithms are one hash cut at two widths:
    for every text or bytes key and seed the value of [murmur3_32] is the
    value of [murmur3_128] modulo [2^32].  Hence, on the fallback path, the
    two tags send a key to the same shard whenever [total_shards] divides
    [2^32] (any power of two up to [2^32]). *)
Theorem fallback_hashes_share_low_bits (rt : Runtime) (key : Key) (seed : Z) :
  HAS_MMH3 rt = false -> text_or_bytes key ->
  exists h32 h128,
    MurmurHash.murmur3_32 rt key seed = Ok h32 /\
    MurmurHash.murmur3_128 rt key seed = Ok h128 /\
    h32 = h128 mod 2 ^ 32 /\
    forall ts, (ts | 2 ^ 32) -> h32 mod ts = h128 mod ts.
Proof.
  intros Hno Hk. unfold MurmurHash.murmur3_32, MurmurHash.murmur3_128.
  rewrite Hno.
  assert (Hbits : forall x,
             Z.land x 0xffffffff = Z.land x 0x7fffffffffffffff mod 2 ^ 32).
  { intros x. rewrite <- (Z.land_ones _ 32) by lia.
    rewrite <- Z.land_assoc. reflexivity. }
  destruct key as [s|n|b]; try contradiction; simpl;
    do 2 eexists; (split; [reflexivity|]); (split; [reflexivity|]);
    (split; [apply Hbits|]);
    intros ts Hdiv; rewrite Hbits; now apply Z.mod_mod_divide.
Qed.

Lemma fallback_hashes_share_low_bits_witness :
  HAS_MMH3 (sample_runtime false) = false /\ text_or_bytes (KStr "user_001") /\
  exists h32 h128,
    MurmurHash.murmur3_32 (sample_runtime false) (KStr "user_001") 42 = Ok h32 /\
    MurmurHash.murmur3_128 (sample_runtime false) (KStr "user_001") 42 = Ok h128 /\
    h32 = h128 mod 2 ^ 32 /\
    forall ts, (ts | 2 ^ 32) -> h32 mod ts = h128 mod ts.
Proof.
  split; [reflexivity|].
  split; [exact I|].
  apply (fallback_hashes_share_low_bits (sample_runtime false) (KStr "user_001") 42);
    [reflexivity | exact I].
Defined.

(** ** The ring, continued *)

Lemma filter_length_permutation {A : Type} (f : A -> bool) (l l' : list A) :
  Permutation l l' -> List.length (filter f l) = List.length (filter f l').
Proof.
  induction 1 as [|x l l' _ IH|x y l|l l' l'' _ IH1 _ IH2]; simpl.
  - reflexivity.
  - destruct (f x); simpl; now rewrite IH.
  - destruct (f x), (f y); reflexivity.
  - congruence.
Qed.

Lemma filter_eqb_NoDup (s : Z) (l : list Z) :
  NoDup l ->
  List.length (filter (fun x => x =? s) l) =
    if in_dec Z.eq_dec s l then 1%nat else 0%nat.
Proof.
  induction 1 as [|x l Hx Hnd IH]; simpl; [reflexivity|].
  destruct (Z.eqb_spec x s) as [->|Hne]; simpl.
  - destruct (Z.eq_dec s s); [|contradiction].
    rewrite IH. now destruct (in_dec Z.eq_dec s l).
  - rewrite IH. destruct (Z.eq_dec x s); [contradiction|].
    now destruct (in_dec Z.eq_dec s l).
Qed.

Lemma filter_fst_row (s x : Z) (ys : list Z) :
  List.length (filter (fun p : Z * Z => fst p =? s) (map (fun y => (x, y)) ys)) =
    if x =? s then List.length ys else 0%nat.
Proof.
  induction ys as [|y ys IH]; simpl; [now destruct (x =? s)|].
  destruct (x =? s); simpl; [now rewrite IH | exact IH].
Qed.

Lemma filter_fst_list_prod (s : Z) (xs ys : list Z) :
  List.length (filter (fun p : Z * Z => fst p =? s) (list_prod xs ys)) =
    (List.length (filter (fun x => (x =? s)%Z) xs) * List.length ys)%nat.
Proof.
  induction xs as [|x xs IH]; simpl; [reflexivity|].
  rewrite filter_app, length_app, IH, filter_fst_row.
  destruct (x =? s); simpl; lia.
Qed.

(** X15.  Every shard owns the same number of ring positions: in the ring
    built by the constructor (supported tag, seed accepted by the hash
    backend, [virtual_nodes >= 0]) the
    entries carrying shard id [s] number exactly [virtual_nodes] when [s] is
    in [[0, total_shards)], and none otherwise. *)
Theorem ring_entries_per_shard (rt : Runtime) (config : ShardConfig) (vn s : Z) :
  supported config -> seed_accepted rt (hash_seed config) -> 0 <= vn ->
  exists r,
    ConsistentHashShardManager.__init__ rt config vn = Ok r /\
    List.length (filter (fun e => snd e =? s) (ConsistentHashShardManager._ring r)) =
      if (0 <=? s) && (s <? total_shards config) then Z.to_nat vn else 0%nat.
Proof.
  intros Hs Hseed Hvn.
  destruct (ring_init_supported rt config vn Hs Hseed)
    as [r [g [Hinit [_ [_ [_ [_ Hring]]]]]]].
  exists r. split; [assumption|]. rewrite Hring.
  rewrite <- (filter_length_permutation _ _ _ (sort_by_hash_perm _)).
  assert (Hmap : forall l : list (Z * Z),
             List.length (filter (fun e => snd e =? s) (map (ring_entry g) l)) =
             List.length (filter (fun p : Z * Z => fst p =? s) l)).
  { induction l as [|p l IH]; simpl; [reflexivity|].
    destruct (fst p =? s); simpl; now rewrite IH. }
  rewrite Hmap, filter_fst_list_prod, (filter_eqb_NoDup s _ (range_NoDup _)),
    in_dec_range, range_length.
  destruct ((0 <=? s) && (s <? total_shards config)); lia.
Qed.

Lemma ring_entries_per_shard_witness :
  supported sample_config /\
  seed_accepted (sample_runtime true) (hash_seed sample_config) /\ 0 <= 3 /\
  exists r,
    ConsistentHashShardManager.__init__ (sample_runtime true) sample_config 3 = Ok r /\
    List.length (filter (fun e => snd e =? 4) (ConsistentHashShardManager._ring r)) =
      if (0 <=? 4) && (4 <? total_shards sample_config) then Z.to_nat 3 else 0%nat.
Proof.
  split; [left; reflexivity|].
  split; [intros _; simpl; lia|].
  split; [lia|].
  apply (ring_entries_per_shard (sample_runtime true) sample_config 3 4);
    [left; reflexivity | intros _; simpl; lia | lia].
Defined.

Lemma scan_ring_least (ring : list (Z * Z)) (h shard_id : Z) :
  StronglySorted hash_le ring ->
  ConsistentHashShardManager.scan_ring ring h = Some shard_id ->
  exists e,
    In e ring /\ snd e = shard_id /\ h <= fst e /\
    forall e', In e' ring -> h <= fst e' -> fst e <= fst e'.
Proof.
  induction 1 as [|[ring_hash sid] ring Hsorted IH Hall]; simpl; [discriminate|].
  destruct (Z.geb_spec ring_hash h) as [Hge|Hlt].
  - intros [= <-]. exists (ring_hash, sid). simpl.
    split; [now left|]. split; [reflexivity|]. split; [lia|].
    intros e' [<-|He'] _; [simpl; lia|].
    rewrite Forall_forall in Hall. exact (Hall e' He').
  - intros Hscan. destruct (IH Hscan) as [e [He [Hsnd [Hle Hleast]]]].
    exists e. split; [now right|]. split; [assumption|]. split; [assumption|].
    intros e' [<-|He'] Hh; [simpl in Hh; lia | now apply Hleast].
Qed.

(** X16.  The lookup is a successor search by value: on a ring built with a
    supported tag, a seed the hash backend accepts, [total_shards >= 1] and
    [virtual_nodes >= 1], the entry
    whose shard id [get_shard_id] returns has the least hash value among the
    entries with hash value at least [h], the hash of the canonical key; when
    there is no such entry it has the least hash value of the whole ring. *)
Theorem ring_lookup_least_successor (rt : Runtime) (config : ShardConfig) (vn : Z)
    (key : Key) :
  supported config -> seed_accepted rt (hash_seed config) ->
  1 <= total_shards config -> 1 <= vn ->
  exists r h e,
    ConsistentHashShardManager.__init__ rt config vn = Ok r /\
    ConsistentHashShardManager._hash_func r (canonical key) (hash_seed config) = Ok h /\
    In e (ConsistentHashShardManager._ring r) /\
    ConsistentHashShardManager.get_shard_id r key = Ok (snd e) /\
    ((h <= fst e /\
      forall e', In e' (ConsistentHashShardManager._ring r) ->
                 h <= fst e' -> fst e <= fst e')
     \/
     (forall e', In e' (ConsistentHashShardManager._ring r) ->
                 fst e' < h /\ fst e <= fst e')).
Proof.
  intros Hs Hseed Hts Hvn.
  destruct (ring_init_supported rt config vn Hs Hseed)
    as [r [g [Hinit [Hcfg [_ [Hsel [_ Hring]]]]]]].
  destruct (selected_total rt config _ (canonical key) (hash_seed config) Hsel
              (canonical_text_or_bytes key) Hseed) as [h Hh].
  assert (Hsorted : Sorted hash_le (ConsistentHashShardManager._ring r))
    by (rewrite Hring; apply sort_by_hash_sorted).
  assert (Hne : ConsistentHashShardManager._ring r <> [])
    by (rewrite Hring; now apply ring_nonempty).
  assert (Hid := ring_get_shard_id_unfold r key h ltac:(now rewrite Hcfg)).
  destruct (ConsistentHashShardManager.scan_ring (ConsistentHashShardManager._ring r) h)
    as [shard_id|] eqn:Hscan.
  - apply scan_ring_least in Hscan as [e [He [<- [Hle Hleast]]]];
      [|apply Sorted_StronglySorted; [exact hash_le_trans | exact Hsorted]].
    exists r, h, e. repeat (split; [assumption|]). now left.
  - pose proof (scan_ring_none _ _ Hscan) as Hbelow.
    destruct (ConsistentHashShardManager._ring r) as [|first rest] eqn:Hr;
      [contradiction|].
    exists r, h, first. split; [assumption|]. split; [assumption|].
    rewrite Hr. split; [now left|]. split; [assumption|]. right.
    intros e' He'. split; [now apply Hbelow | now apply (sorted_head_least first rest)].
Qed.

Lemma ring_lookup_least_successor_witness :
  supported sample_config /\
  seed_accepted (sample_runtime true) (hash_seed sample_config) /\
  1 <= total_shards sample_config /\ 1 <= 3 /\
  exists r h e,
    ConsistentHashShardManager.__init__ (sample_runtime true) sample_config 3 = Ok r /\
    ConsistentHashShardManager._hash_func r (canonical (KInt 42))
      (hash_seed sample_config) = Ok h /\
    In e (ConsistentHashShardManager._ring r) /\
    ConsistentHashShardManager.get_shard_id r (KInt 42) = Ok (snd e) /\
    ((h <= fst e /\
      forall e', In e' (ConsistentHashShardManager._ring r) ->
                 h <= fst e' -> fst e <= fst e')
     \/
     (forall e', In e' (ConsistentHashShardManager._ring r) ->
                 fst e' < h /\ fst e <= fst e')).
Proof.
  split; [left; reflexivity|].
  split; [intros _; simpl; lia|].
  split; [simpl; lia|].
  split; [lia|].
  apply (ring_lookup_least_successor (sample_runtime true) sample_config 3 (KInt 42));
    [left; reflexivity | intros _; simpl; lia | simpl; lia | lia].
Defined.

Lemma sort_insert_stable (h : Z) (x : Z * Z) (l : list (Z * Z)) :
  filter (fun e => fst e =? h) (sort_insert x l) =
  filter (fun e => fst e =? h) (x :: l).
Proof.
  induction l as [|y l IH]; [reflexivity|].
  cbn [sort_insert]. destruct (Z.ltb_spec (fst y) (fst x)) as [Hlt|Hge];
    [|reflexivity].
  cbn [filter] in *. rewrite IH.
  destruct (Z.eqb_spec (fst x) h) as [Hx|Hx], (Z.eqb_spec (fst y) h) as [Hy|Hy];
    try reflexivity. lia.
Qed.

Lemma sort_by_hash_stable (h : Z) (l : list (Z * Z)) :
  filter (fun e => fst e =? h) (sort_by_hash l) = filter (fun e => fst e =? h) l.
Proof.
  induction l as [|x l IH]; [reflexivity|].
  cbn [sort_by_hash]. rewrite sort_insert_stable. cbn [filter]. now rewrite IH.
Qed.

(** X17.  Ties keep the order of insertion: in the ring built with a
    supported tag and a seed the hash backend accepts, the entries that
    share one hash value stand in the order in which the two loops of
    [_build_hash_ring] produced them, ascending shard id and, within a
    shard, ascending virtual-node index. *)
Theorem ring_sort_is_stable (rt : Runtime) (config : ShardConfig) (vn : Z) :
  supported config -> seed_accepted rt (hash_seed config) ->
  exists r entries,
    ConsistentHashShardManager.__init__ rt config vn = Ok r /\
    Forall2 (fun p e =>
               ConsistentHashShardManager._hash_func r
                 (KStr (vnode_key (fst p) (snd p))) (hash_seed config) = Ok (fst e) /\
               snd e = fst p)
            (list_prod (range (total_shards config)) (range vn)) entries /\
    forall h,
      filter (fun e => fst e =? h) (ConsistentHashShardManager._ring r) =
      filter (fun e => fst e =? h) entries.
Proof.
  intros Hs Hseed.
  destruct (ring_init_supported rt config vn Hs Hseed)
    as [r [g [Hinit [_ [_ [_ [Hg Hring]]]]]]].
  exists r, (map (ring_entry g) (list_prod (range (total_shards config)) (range vn))).
  split; [assumption|]. split; [now apply ring_entries_shape|].
  intros h. rewrite Hring. apply sort_by_hash_stable.
Qed.

Lemma ring_sort_is_stable_witness :
  supported sample_config /\
  seed_accepted (sample_runtime true) (hash_seed sample_config) /\
  exists r entries,
    ConsistentHashShardManager.__init__ (sample_runtime true) sample_config 3 = Ok r /\
    Forall2 (fun p e =>
               ConsistentHashShardManager._hash_func r
                 (KStr (vnode_key (fst p) (snd p))) (hash_seed sample_config) =
                 Ok (fst e) /\
               snd e = fst p)
            (list_prod (range (total_shards sample_config)) (range 3)) entries /\
    forall h,
      filter (fun e => fst e =? h) (ConsistentHashShardManager._ring r) =
      filter (fun e => fst e =? h) entries.
Proof.
  split; [left; reflexivity|].
  split; [intros _; simpl; lia|].
  apply (ring_sort_is_stable (sample_runtime true) sample_config 3).
  - left; reflexivity.
  - intros _; simpl; lia.
Defined.

(** *** Virtual-node identifiers *)

Lemma string_of_uint_no_underscore (d : Decimal.uint) :
  no_underscore (NilEmpty.string_of_uint d).
Proof.
  unfold no_underscore.
  induction d; simpl; try tauto; intros [H|H]; try discriminate H; auto.
Qed.

Lemma str_no_underscore (n : Z) : no_underscore (str n).
Proof.
  unfold str, NilZero.string_of_int, NilZero.string_of_uint.
  destruct (Z.to_int n) as [d|d].
  - destruct d; try apply string_of_uint_no_underscore.
    unfold no_underscore. simpl. intros [H|[]]. discriminate H.
  - unfold no_underscore. cbn [list_ascii_of_string In].
    intros [H|H]; [discriminate H|].
    destruct d; try (now apply (string_of_uint_no_underscore _ H)).
    simpl in H. destruct H as [H|[]]. discriminate H.
Qed.

Lemma split_at_underscore (a b r1 r2 : string) :
  no_underscore a -> no_underscore b ->
  (a ++ String "_" r1 = b ++ String "_" r2)%string -> a = b /\ r1 = r2.
Proof.
  unfold no_underscore. revert b.
  induction a as [|c a IH]; intros [|c' b] Ha Hb H; simpl in *.
  - injection H as ->. auto.
  - injection H as <- _. exfalso. apply Hb. now left.
  - injection H as -> _. exfalso. apply Ha. now left.
  - injection H as -> H.
    destruct (IH b) as [-> ->]; auto.
Qed.

(** X18.  Virtual-node identifiers do not collide: the text
    [shard_<s>_vnode_<v>] determines the shard id and the virtual-node index
    it was made from, so the ring hashes as many different texts as it has
    entries. *)
Theorem vnode_key_injective (shard_id vnode shard_id' vnode' : Z) :
  vnode_key shard_id vnode = vnode_key shard_id' vnode' ->
  shard_id = shard_id' /\ vnode = vnode'.
Proof.
  unfold vnode_key. intros H.
  apply (string_app_inv_head "shard_") in H.
  apply (split_at_underscore (str shard_id) (str shard_id')) in H
    as [Hs Hv]; try apply str_no_underscore.
  apply (string_app_inv_head "vnode_") in Hv.
  split; now apply str_inj.
Qed.

Lemma vnode_key_injective_witness :
  vnode_key 3 12 = vnode_key 3 12 /\ 3 = 3 /\ 12 = 12.
Proof.
  split; [reflexivity|].
  apply (vnode_key_injective 3 12 3 12). reflexivity.
Defined.

Lemma NoDup_map_fst_eq (l : list (Z * Z)) (a b : Z * Z) :
  NoDup (map fst l) -> In a l -> In b l -> fst a = fst b -> a = b.
Proof.
  induction l as [|x l IH]; simpl; [contradiction|].
  intros Hnd Ha Hb Heq. inversion Hnd as [|? ? Hx Hnd']; subst.
  destruct Ha as [->|Ha], Hb as [->|Hb]; auto.
  - exfalso. apply Hx. rewrite Heq. now apply in_map.
  - exfalso. apply Hx. rewrite <- Heq. now apply in_map.
Qed.

(** X19.  A virtual node's own identifier is routed to its shard: on a
    constructed ring whose entries carry pairwise different hash values, for
    [s] in [[0, total_shards)] and [v] in [[0, virtual_nodes)],
    [get_shard_id("shard_<s>_vnode_<v>")] returns [s]. *)
Theorem vnode_key_routes_home (rt : Runtime) (config : ShardConfig) (vn : Z)
    (r : ConsistentHashShardManager.t) (s v : Z) :
  ConsistentHashShardManager.__init__ rt config vn = Ok r ->
  NoDup (map fst (ConsistentHashShardManager._ring r)) ->
  0 <= s < total_shards config -> 0 <= v < vn ->
  ConsistentHashShardManager.get_shard_id r (KStr (vnode_key s v)) = Ok s.
Proof.
  intros Hinit Hnd Hs Hv.
  destruct (ring_constructed rt config vn r Hinit ltac:(lia) ltac:(lia))
    as [_ [_ [g [Hcfg [Hsel [Hg Hring]]]]]].
  assert (Hin : In (g (vnode_key s v), s) (ConsistentHashShardManager._ring r)).
  { rewrite Hring. apply (Permutation_in _ (sort_by_hash_perm _)).
    apply in_map_iff. exists (s, v). split; [reflexivity|].
    apply in_prod; now apply In_range. }
  rewrite (ring_get_shard_id_unfold r (KStr (vnode_key s v)) (g (vnode_key s v)))
    by (simpl; rewrite Hcfg; apply Hg).
  destruct (ConsistentHashShardManager.scan_ring (ConsistentHashShardManager._ring r)
              (g (vnode_key s v))) as [shard_id|] eqn:Hscan.
  - apply scan_ring_least in Hscan as [e [He [<- [Hle Hleast]]]].
    + pose proof (Hleast _ Hin ltac:(simpl; lia)) as Hge. simpl in Hge.
      assert (Heq : e = (g (vnode_key s v), s)).
      { apply (NoDup_map_fst_eq _ _ _ Hnd He Hin). simpl. lia. }
      now rewrite Heq.
    + apply Sorted_StronglySorted; [exact hash_le_trans|].
      rewrite Hring. apply sort_by_hash_sorted.
  - pose proof (scan_ring_none _ _ Hscan _ Hin) as Hlt. simpl in Hlt. lia.
Qed.

Lemma vnode_key_routes_home_witness :
  exists r,
    ConsistentHashShardManager.__init__ (sample_runtime true) sample_config 3 = Ok r /\
    NoDup (map fst (ConsistentHashShardManager._ring r)) /\
    0 <= 2 < total_shards sample_config /\ 0 <= 1 < 3 /\
    ConsistentHashShardManager.get_shard_id r (KStr (vnode_key 2 1)) = Ok 2.
Proof.
  eexists. split; [reflexivity|].
  assert (Hnd : NoDup (map fst (ConsistentHashShardManager._ring
            {| ConsistentHashShardManager.config := sample_config;
               ConsistentHashShardManager._hash_func :=
                 MurmurHash.murmur3_32 (sample_runtime true);
               ConsistentHashShardManager.virtual_nodes := 3;
               ConsistentHashShardManager._ring :=
                 [(1014299535, 0); (1014299536, 0); (1014299537, 0);
                  (1694357905, 2); (1694357906, 2); (1694357907, 2);
                  (2374416275, 4); (2374416276, 4); (2374416277, 4);
                  (3501812368, 1); (3501812369, 1); (3501812370, 1);
                  (4181870738, 3); (4181870739, 3); (4181870740, 3)] |}))).
  { simpl. repeat (constructor; [simpl; intuition discriminate|]). constructor. }
  split; [exact Hnd|].
  split; [simpl; lia|].
  split; [lia|].
  apply (vnode_key_routes_home (sample_runtime true) sample_config 3 _ 2 1);
    [reflexivity | exact Hnd | simpl; lia | lia].
Defined.

(** ** The example router, continued *)

(** X20.  Building a [DatabaseRouter] never fails, whatever the manager;
    over a degenerate manager it is each lookup that fails; with a seed the
    hash backend accepts it fails with the manager's own error:
    [ZeroDivisionError] over a router with [total_shards = 0], [IndexError]
    over a ring that is empty.  No [KeyError] is reached in these cases, and
    [route_query] fails the same way. *)
Theorem database_router_degenerate_manager (rt : Runtime) (config : ShardConfig)
    (vn : Z) (user_id : Key) (query : string) :
  supported config -> seed_accepted rt (hash_seed config) -> total_shards config = 0 ->
  exists m r,
    ShardManager.__init__ rt config = Ok m /\
    ConsistentHashShardManager.__init__ rt config vn = Ok r /\
    DatabaseRouter.db_configs (DatabaseRouter.__init__ (Modulo m)) = [] /\
    DatabaseRouter.db_configs (DatabaseRouter.__init__ (Consistent r)) = [] /\
    DatabaseRouter.get_database_connection_info
      (DatabaseRouter.__init__ (Modulo m)) user_id = Raised ZeroDivisionError /\
    DatabaseRouter.route_query
      (DatabaseRouter.__init__ (Modulo m)) user_id query = Raised ZeroDivisionError /\
    DatabaseRouter.get_database_connection_info
      (DatabaseRouter.__init__ (Consistent r)) user_id = Raised IndexError /\
    DatabaseRouter.route_query
      (DatabaseRouter.__init__ (Consistent r)) user_id query = Raised IndexError.
Proof.
  intros Hs Hseed Hz.
  destruct (init_supported rt config Hs) as [m [Hm [Hcfg Hsel]]].
  destruct (ring_init_supported rt config vn Hs Hseed)
    as [r [g [Hr [Hrcfg [_ [Hrsel [_ Hring]]]]]]].
  exists m, r. split; [assumption|]. split; [assumption|].
  assert (Hnil : ConsistentHashShardManager._ring r = []).
  { rewrite Hring. now rewrite (range_nonpos (total_shards config)) by lia. }
  assert (Hmid : ShardManager.get_shard_id m user_id = Raise ZeroDivisionError).
  { destruct (selected_total rt config _ (canonical user_id) (hash_seed config) Hsel
                (canonical_text_or_bytes user_id) Hseed) as [h Hh].
    rewrite (get_shard_id_unfold m user_id h) by (now rewrite Hcfg).
    now rewrite Hcfg, Hz. }
  assert (Hrid : ConsistentHashShardManager.get_shard_id r user_id = Raise IndexError).
  { destruct (selected_total rt config _ (canonical user_id) (hash_seed config) Hrsel
                (canonical_text_or_bytes user_id) Hseed) as [h Hh].
    rewrite (ring_get_shard_id_unfold r user_id h) by (now rewrite Hrcfg).
    now rewrite Hnil. }
  assert (Hempty : forall sm, total_shards (manager_config sm) = 0 ->
                     DatabaseRouter.db_configs (DatabaseRouter.__init__ sm) = []).
  { intros sm Hsm. cbn [DatabaseRouter.__init__ DatabaseRouter.db_configs].
    rewrite manager_database_config_closed, Hsm. reflexivity. }
  split; [apply Hempty; simpl; now rewrite Hcfg|].
  split; [apply Hempty; simpl; now rewrite Hrcfg|].
  unfold DatabaseRouter.route_query, DatabaseRouter.get_database_connection_info.
  cbn [DatabaseRouter.__init__ DatabaseRouter.shard_manager manager_get_shard_id].
  rewrite Hmid, Hrid. repeat split; reflexivity.
Qed.

Lemma database_router_degenerate_manager_witness :
  supported zero_shards_config /\
  seed_accepted (sample_runtime true) (hash_seed zero_shards_config) /\
  total_shards zero_shards_config = 0 /\
  exists m r,
    ShardManager.__init__ (sample_runtime true) zero_shards_config = Ok m /\
    ConsistentHashShardManager.__init__ (sample_runtime true) zero_shards_config 150 =
      Ok r /\
    DatabaseRouter.db_configs (DatabaseRouter.__init__ (Modulo m)) = [] /\
    DatabaseRouter.db_configs (DatabaseRouter.__init__ (Consistent r)) = [] /\
    DatabaseRouter.get_database_connection_info
      (DatabaseRouter.__init__ (Modulo m)) (KStr "alice_123") =
      Raised ZeroDivisionError /\
    DatabaseRouter.route_query
      (DatabaseRouter.__init__ (Modulo m)) (KStr "alice_123") "SELECT 1" =
      Raised ZeroDivisionError /\
    DatabaseRouter.get_database_connection_info
      (DatabaseRouter.__init__ (Consistent r)) (KStr "alice_123") = Raised IndexError /\
    DatabaseRouter.route_query
      (DatabaseRouter.__init__ (Consistent r)) (KStr "alice_123") "SELECT 1" =
      Raised IndexError.
Proof.
  split; [left; reflexivity|].
  split; [intros _; simpl; lia|].
  split; [reflexivity|].
  apply (database_router_degenerate_manager (sample_runtime true) zero_shards_config
           150 (KStr "alice_123") "SELECT 1"); [left; reflexivity | intros _; simpl; lia | reflexivity].
Defined.

(** X21.  Every shard a distribution reports can be connected to: on a
    router with a supported tag, a seed the hash backend accepts and
    [total_shards >= 1], each shard id that
    is a key of [get_shard_key_distribution(keys)] is a key of
    [get_database_config(base)], whose entry carries that shard id. *)
Theorem distribution_shards_have_config (rt : Runtime) (config : ShardConfig)
    (keys : list Key) (base : string) :
  supported config -> seed_accepted rt (hash_seed config) -> 1 <= total_shards config ->
  exists m d,
    ShardManager.__init__ rt config = Ok m /\
    ShardManager.get_shard_key_distribution m keys = Ok d /\
    forall s, In s (dict_keys d) ->
    exists db_info,
      dict_get (ShardManager.get_database_config m base) s = Some db_info /\
      DbConfig.shard_id db_info = s.
Proof.
  intros Hs Hseed Hts.
  destruct (router_routes rt config Hs Hseed ltac:(lia)) as [m [Hm [Hcfg [_ Hroute]]]].
  destruct (distribution_tally (ShardManager.get_shard_id m)
              (fun s => 0 <= s < total_shards config) keys)
    as [d [Hd [_ [_ [_ Hrange]]]]].
  { intros key. destruct (Hroute key) as [h [_ Hid]].
    exists (h mod total_shards config). split; [assumption|].
    apply Z.mod_pos_bound. lia. }
  exists m, d. split; [assumption|]. split; [assumption|].
  intros s Hin. specialize (Hrange s Hin).
  change (ShardManager.get_database_config m base)
    with (manager_get_database_config (Modulo m) base).
  rewrite manager_database_config_closed, dict_get_map_fresh, in_dec_range.
  simpl manager_config. rewrite Hcfg.
  destruct (Z.leb_spec 0 s), (Z.ltb_spec s (total_shards config)); try lia.
  simpl. eauto.
Qed.

Lemma distribution_shards_have_config_witness :
  supported sample_config /\
  seed_accepted (sample_runtime true) (hash_seed sample_config) /\
  1 <= total_shards sample_config /\
  exists m d,
    ShardManager.__init__ (sample_runtime true) sample_config = Ok m /\
    ShardManager.get_shard_key_distribution m [KStr "user_1"; KInt 5] = Ok d /\
    forall s, In s (dict_keys d) ->
    exists db_info,
      dict_get (ShardManager.get_database_config m "ecommerce") s = Some db_info /\
      DbConfig.shard_id db_info = s.
Proof.
  split; [left; reflexivity|].
  split; [intros _; simpl; lia|].
  split; [simpl; lia|].
  apply (distribution_shards_have_config (sample_runtime true) sample_config
           [KStr "user_1"; KInt 5] "ecommerce"); [left; reflexivity | intros _; simpl; lia | simpl; lia].
Defined.

(** ** Seed and key on the fallback path *)

Lemma encode_app (a b : string) : encode (a ++ b) = (encode a ++ encode b)%list.
Proof.
  unfold encode, list_byte_of_string.
  induction a as [|c a IH]; simpl; [reflexivity | now rewrite IH].
Qed.

Lemma string_of_uint_app (u v : Decimal.uint) :
  NilEmpty.string_of_uint (Decimal.app u v) =
  (NilEmpty.string_of_uint u ++ NilEmpty.string_of_uint v)%string.
Proof.
  induction u as [|w IH|w IH|w IH|w IH|w IH|w IH|w IH|w IH|w IH|w IH];
    [now rewrite DecimalFacts.app_nil_l|..];
    match goal with
    | |- NilEmpty.string_of_uint (Decimal.app (?c w) v) = _ =>
        replace (Decimal.app (c w) v) with (c (Decimal.app w v))
          by (apply DecimalFacts.to_list_inj;
              rewrite DecimalFacts.app_spec; simpl;
              now rewrite DecimalFacts.app_spec)
    end; simpl; now rewrite IH.
Qed.

Lemma nzhead_not_D0 (d x : Decimal.uint) : Decimal.nzhead d <> Decimal.D0 x.
Proof. induction d; simpl; try discriminate. exact IHd. Qed.

Lemma unorm_D0_fixed (u : Decimal.uint) :
  Decimal.unorm (Decimal.D0 u) = Decimal.D0 u -> Decimal.D0 u = Decimal.zero.
Proof.
  rewrite DecimalFacts.unorm_D0. unfold Decimal.unorm.
  destruct (Decimal.nzhead u) eqn:Hn; intros Hu; try discriminate Hu.
  - now injection Hu as <-.
  - exfalso. exact (nzhead_not_D0 _ _ Hn).
Qed.

(** Digits appended to a numeral without leading zero leave it without one. *)
Lemma unorm_app_normal (u v : Decimal.uint) :
  Decimal.unorm u = u -> u <> Decimal.zero ->
  Decimal.unorm (Decimal.app u v) = Decimal.app u v.
Proof.
  intros Hu Hz.
  destruct u as [|w|w|w|w|w|w|w|w|w|w];
    [discriminate Hu | exfalso; now apply Hz, unorm_D0_fixed | ..];
    match goal with
    | |- Decimal.unorm (Decimal.app (?c w) v) = _ =>
        replace (Decimal.app (c w) v) with (c (Decimal.app w v))
          by (apply DecimalFacts.to_list_inj;
              rewrite DecimalFacts.app_spec; simpl;
              now rewrite DecimalFacts.app_spec)
    end; reflexivity.
Qed.

Lemma to_uint_normal (p : positive) : Decimal.unorm (Pos.to_uint p) = Pos.to_uint p.
Proof.
  rewrite <- (DecimalPos.Unsigned.to_of (Pos.to_uint p)).
  now rewrite DecimalPos.Unsigned.of_to.
Qed.

Lemma to_uint_append (p q : positive) (v : Decimal.uint) (k : N) :
  (forall w, DecimalPos.Unsigned.of_lu (Decimal.rev (Decimal.app w v)) =
             (k + 10 * DecimalPos.Unsigned.of_lu (Decimal.rev w))%N) ->
  (N.pos q = k + 10 * N.pos p)%N ->
  Pos.to_uint q = Decimal.app (Pos.to_uint p) v.
Proof.
  intros Hv Hq.
  rewrite <- (unorm_app_normal (Pos.to_uint p) v (to_uint_normal p)
                (DecimalPos.Unsigned.to_uint_nonzero p)).
  rewrite <- DecimalPos.Unsigned.to_of.
  rewrite DecimalPos.Unsigned.of_uint_alt, Hv, <- DecimalPos.Unsigned.of_uint_alt,
    DecimalPos.Unsigned.of_to, <- Hq.
  reflexivity.
Qed.

Lemma of_lu_rev_app_digit (c : Decimal.uint -> Decimal.uint) (k : N) :
  (forall t, DecimalFacts.to_list (c t) =
             (DecimalFacts.to_list (c Decimal.Nil) ++ DecimalFacts.to_list t)%list) ->
  List.length (DecimalFacts.to_list (c Decimal.Nil)) = 1%nat ->
  (forall t, DecimalPos.Unsigned.of_lu (c t) =
             (k + 10 * DecimalPos.Unsigned.of_lu t)%N) ->
  forall w, DecimalPos.Unsigned.of_lu (Decimal.rev (Decimal.app w (c Decimal.Nil))) =
            (k + 10 * DecimalPos.Unsigned.of_lu (Decimal.rev w))%N.
Proof.
  intros Hc Hlen Hlu w. rewrite <- Hlu. f_equal.
  apply DecimalFacts.to_list_inj.
  rewrite DecimalFacts.rev_spec, DecimalFacts.app_spec, List.rev_app_distr,
    (Hc (Decimal.rev w)), DecimalFacts.rev_spec.
  f_equal. destruct (DecimalFacts.to_list (c Decimal.Nil)) as [|x [|y l]];
    try discriminate Hlen. reflexivity.
Qed.

Lemma str_pos (p : positive) :
  str (Z.pos p) = NilEmpty.string_of_uint (Pos.to_uint p).
Proof.
  unfold str. simpl. unfold NilZero.string_of_uint.
  destruct (Pos.to_uint p) eqn:Hp; try reflexivity.
  now apply DecimalPos.Unsigned.to_uint_nonnil in Hp.
Qed.

Ltac append_digit c k Hgen :=
  apply (Hgen (c Decimal.Nil) k); [reflexivity | | reflexivity];
  apply (of_lu_rev_app_digit c k); [reflexivity | reflexivity |];
  intros t; now rewrite DecimalPos.Unsigned.of_lu_eqn.

(** The decimal text of [10 * seed + d], for a positive [seed] and a digit
    [d], is the text of [seed] followed by the digit. *)
Lemma str_append_digit (seed d : Z) :
  1 <= seed -> 0 <= d <= 9 -> str (10 * seed + d) = (str seed ++ str d)%string.
Proof.
  intros Hseed Hd.
  destruct seed as [|p|p]; try lia.
  assert (Hq : exists q, 10 * Z.pos p + d = Z.pos q)
    by (exists (Z.to_pos (10 * Z.pos p + d)); lia).
  destruct Hq as [q Hq]. rewrite Hq, !str_pos.
  assert (Hgen : forall (v : Decimal.uint) (k : N),
            str d = NilEmpty.string_of_uint v ->
            (forall w, DecimalPos.Unsigned.of_lu (Decimal.rev (Decimal.app w v)) =
                       (k + 10 * DecimalPos.Unsigned.of_lu (Decimal.rev w))%N) ->
            Z.of_N k = d ->
            NilEmpty.string_of_uint (Pos.to_uint q) =
            (NilEmpty.string_of_uint (Pos.to_uint p) ++ str d)%string).
  { intros v k Hstr Hv Hk.
    rewrite (to_uint_append p q v k Hv) by lia.
    now rewrite string_of_uint_app, Hstr. }
  assert (Hcases : d = 0 \/ d = 1 \/ d = 2 \/ d = 3 \/ d = 4 \/ d = 5 \/ d = 6 \/
                   d = 7 \/ d = 8 \/ d = 9) by lia.
  destruct Hcases as [->|[->|[->|[->|[->|[->|[->|[->|[->| ->]]]]]]]]].
  - append_digit Decimal.D0 0%N Hgen.
  - append_digit Decimal.D1 1%N Hgen.
  - append_digit Decimal.D2 2%N Hgen.
  - append_digit Decimal.D3 3%N Hgen.
  - append_digit Decimal.D4 4%N Hgen.
  - append_digit Decimal.D5 5%N Hgen.
  - append_digit Decimal.D6 6%N Hgen.
  - append_digit Decimal.D7 7%N Hgen.
  - append_digit Decimal.D8 8%N Hgen.
  - append_digit Decimal.D9 9%N Hgen.
Qed.

(** X22.  Without [mmh3] the seed is not kept apart from the key: the
    fallback hashes the text of the seed followed by the key, so moving a
    leading digit of the key to the end of a positive seed changes neither
    hash.  For a seed [>= 1] and a digit [d], the key [str(d) + key] under
    [seed] hashes as [key] under [10 * seed + d], for bytes keys and for text
    keys, with both algorithms. *)
Theorem fallback_seed_key_ambiguity (rt : Runtime) (seed d : Z)
    (b : list byte) (s : string) :
  HAS_MMH3 rt = false -> 1 <= seed -> 0 <= d <= 9 ->
  MurmurHash.murmur3_32 rt (KBytes (encode (str d) ++ b)) seed =
    MurmurHash.murmur3_32 rt (KBytes b) (10 * seed + d) /\
  MurmurHash.murmur3_128 rt (KBytes (encode (str d) ++ b)) seed =
    MurmurHash.murmur3_128 rt (KBytes b) (10 * seed + d) /\
  MurmurHash.murmur3_32 rt (KStr (str d ++ s)) seed =
    MurmurHash.murmur3_32 rt (KStr s) (10 * seed + d) /\
  MurmurHash.murmur3_128 rt (KStr (str d ++ s)) seed =
    MurmurHash.murmur3_128 rt (KStr s) (10 * seed + d).
Proof.
  intros Hno Hseed Hd.
  unfold MurmurHash.murmur3_32, MurmurHash.murmur3_128. rewrite Hno.
  cbn [bytes_add bind].
  rewrite (str_append_digit seed d Hseed Hd), !encode_app, <- !app_assoc.
  repeat split; reflexivity.
Qed.

Lemma fallback_seed_key_ambiguity_witness :
  HAS_MMH3 (sample_runtime false) = false /\ 1 <= 1 /\ 0 <= 5 <= 9 /\
  MurmurHash.murmur3_32 (sample_runtime false) (KBytes (encode (str 5) ++ [])) 1 =
    MurmurHash.murmur3_32 (sample_runtime false) (KBytes []) (10 * 1 + 5) /\
  MurmurHash.murmur3_128 (sample_runtime false) (KBytes (encode (str 5) ++ [])) 1 =
    MurmurHash.murmur3_128 (sample_runtime false) (KBytes []) (10 * 1 + 5) /\
  MurmurHash.murmur3_32 (sample_runtime false) (KStr (str 5 ++ "x")) 1 =
    MurmurHash.murmur3_32 (sample_runtime false) (KStr "x") (10 * 1 + 5) /\
  MurmurHash.murmur3_128 (sample_runtime false) (KStr (str 5 ++ "x")) 1 =
    MurmurHash.murmur3_128 (sample_runtime false) (KStr "x") (10 * 1 + 5).
Proof.
  split; [reflexivity|].
  split; [lia|].
  split; [lia|].
  apply (fallback_seed_key_ambiguity (sample_runtime false) 1 5 [] "x");
    [reflexivity | lia | lia].
Defined.
